(** * kindle-periodical-sender: controllers and the Feed model

    A shallow embedding of the two REST controllers
    ([NewsletterController], [UserController]) and of [Feed.getEncoding].

    The controllers are [async] functions that call collaborators (the
    services, the response object [res], the [next] callback, the logger)
    and may [throw].  They are embedded in a state-and-exception monad over
    a [World]: the persistent store the services work on, together with
    the chronological list of the calls the controller made on its
    collaborators.  A thrown exception keeps the world as it was at the
    [throw]: JavaScript does not roll anything back.

    The services, the pagination helper and the status constants are not
    part of these sources.  The controllers are written over interfaces
    for the first two, so every statement about them holds for any
    implementation; an in-memory implementation is given to run them on
    concrete requests. *)

From Stdlib Require Import ZArith Bool List String Ascii Lia.
From stdpp Require Import gmap strings.
Import ListNotations.
Open Scope string_scope.
Open Scope list_scope.
Open Scope Z_scope.

(** ** JavaScript values used by the controllers *)

(** The result of [parseInt]: an integer or [NaN].  Identifiers are far
    below 2^53, so the integer is kept exact. *)
Inductive JsNumber : Type :=
| Num (z : Z)
| NaN.

(** [a === b] on numbers: [NaN] is different from everything, itself
    included. *)
Definition strictEq (a b : JsNumber) : bool :=
  match a, b with
  | Num x, Num y => Z.eqb x y
  | _, _ => false
  end.

(** [a !== b]. *)
Definition strictNe (a b : JsNumber) : bool := negb (strictEq a b).

(** [a !== b] where [b] may be [undefined] (a missing property): a number is
    never strictly equal to [undefined]. *)
Definition strictNeOpt (a : Z) (b : option Z) : bool :=
  match b with
  | Some y => negb (Z.eqb a y)
  | None => true
  end.

(** *** [parseInt] with no radix, on ASCII input

    Leading white space is skipped, an optional sign is read, a [0x] or
    [0X] prefix switches to base 16, then the longest run of digits is
    read; no digit at all gives [NaN]. *)

Definition isWhiteSpace (c : ascii) : bool :=
  let n := nat_of_ascii c in
  ((9 <=? n) && (n <=? 13))%nat || (n =? 32)%nat.

Fixpoint trimStart (s : string) : string :=
  match s with
  | String c rest => if isWhiteSpace c then trimStart rest else s
  | EmptyString => EmptyString
  end.

Definition digitValue (c : ascii) : option Z :=
  let n := Z.of_nat (nat_of_ascii c) in
  if (48 <=? n) && (n <=? 57) then Some (n - 48)
  else if (97 <=? n) && (n <=? 122) then Some (n - 97 + 10)
  else if (65 <=? n) && (n <=? 90) then Some (n - 65 + 10)
  else None.

(** Reads the longest prefix of digits of base [radix]; [acc] is [None]
    until a first digit has been read. *)
Fixpoint readDigits (radix : Z) (acc : option Z) (s : string) : option Z :=
  match s with
  | String c rest =>
      match digitValue c with
      | Some d =>
          if d <? radix
          then readDigits radix
                 (Some (match acc with Some a => a * radix + d | None => d end))
                 rest
          else acc
      | None => acc
      end
  | EmptyString => acc
  end.

Definition stripSign (s : string) : bool * string :=
  match s with
  | String "-" rest => (true, rest)
  | String "+" rest => (false, rest)
  | _ => (false, s)
  end.

Definition stripHexPrefix (s : string) : Z * string :=
  match s with
  | String "0" (String "x" rest) => (16, rest)
  | String "0" (String "X" rest) => (16, rest)
  | _ => (10, s)
  end.

Definition parseInt (s : string) : JsNumber :=
  let (negative, s1) := stripSign (trimStart s) in
  let (radix, s2) := stripHexPrefix s1 in
  match readDigits radix None s2 with
  | Some n => Num (if negative then - n else n)
  | None => NaN
  end.

(** ** Data model *)

(** A row of the users table, with the fields the controllers read. *)
Module User.
Record t : Type := Build {
  id : Z;
  name : string;
  super : bool;
  pendingConfirm : bool;
  pendingPassword : bool
}.
End User.

(** A row of the newsletters table. *)
Module Newsletter.
Record t : Type := Build {
  id : Z;
  name : string;
  userId : Z;
  active : bool
}.
End Newsletter.

(** One entry of [validationResult(req).array()]. *)
Record FieldError : Type := {
  param : string;
  msg : string
}.

(** A value of [req.query]: missing, a string of the URL, or a boolean put
    there by the program itself. *)
Inductive QueryValue : Type :=
| QUndefined
| QString (s : string)
| QBoolean (b : bool).

Record Query : Type := {
  q_page : option string;
  q_size : option string;
  q_name : option string;
  q_loggedUser : QueryValue
}.

(** [req.body]; a missing property is [None]. *)
Record Body : Type := {
  b_name : option string;
  b_email : option string;
  b_password : option string;
  b_super : option bool;
  b_pendingConfirm : option bool;
  b_userId : option Z
}.

Record Request : Type := {
  userId : Z;                          (* req.userId, set by the auth middleware *)
  params_id : string;                  (* req.params.id *)
  query : Query;                       (* req.query *)
  body : Body;                         (* req.body *)
  validationErrors : list FieldError   (* validationResult(req).array() *)
}.

(** The filter object handed to [findAll]. *)
Record Filter : Type := {
  page : option Z;
  size : option Z;
  f_name : option string;
  f_userId : option Z
}.

Definition setUserId (f : Filter) (uid : Z) : Filter :=
  {| page := page f; size := size f; f_name := f_name f; f_userId := Some uid |}.

Definition setName (f : Filter) (n : string) : Filter :=
  {| page := page f; size := size f; f_name := Some n; f_userId := f_userId f |}.

(** Truthiness of an optional string: [undefined] and the empty string are
    falsy. *)
Definition truthy (s : option string) : option string :=
  match s with
  | Some EmptyString => None
  | other => other
  end.

(** [q && q === true]. *)
Definition isTrue (q : QueryValue) : bool :=
  match q with
  | QBoolean true => true
  | _ => false
  end.

(** Modelled from the spec: the status constants of [errors/http-status],
    which the spec lists as 200 OK, 201 Created, 204 No Content, 400 Bad
    Request, 401 Unauthorized, 403 Forbidden, 404 Not Found and 422
    Unprocessable Entity. *)
Module HttpStatus.
Definition OK : Z := 200.
Definition CREATED : Z := 201.
Definition NO_CONTENT : Z := 204.
Definition BAD_REQUEST : Z := 400.
Definition UNAUTHORIZED : Z := 401.
Definition FORBIDDEN : Z := 403.
Definition NOT_FOUND : Z := 404.
Definition UNPROCESSABLE_ENTITY : Z := 422.
End HttpStatus.

(** What the controllers can throw. *)
Inductive Exn : Type :=
| APIError (name : string) (status : Z) (message : string)
| ReferenceError (identifier : string)
| TypeError (message : string).

(** The argument of [res.json].  The two pagination envelopes are kept as
    the library call that builds them. *)
Inductive Json : Type :=
| JErrors (errors : list FieldError)
| JNewsletterPage (rows : list Newsletter.t) (page size : option Z)
| JUserPage (rows : list User.t) (page size : option Z)
| JUserSinglePage (u : User.t) (page size : option Z)
| JNewsletter (n : Newsletter.t)
| JUser (u : User.t)
| JNewsletterMessage (message : string) (n : Newsletter.t)
| JUserMessage (message : string) (u : User.t)
| JEmpty.

(** The calls a controller makes on its collaborators. *)
Inductive Event : Type :=
| UserFindById (id : JsNumber)
| UserFindAll (f : Filter)
| UserSave (dto : Body)
| UserEdit (u : User.t) (dto : Body)
| UserEditById (id : JsNumber) (dto : Body)
| UserRemove (u : User.t)
| UserPromote (id : JsNumber)
| NewsletterFindAll (f : Filter)
| NewsletterFindById (id : JsNumber)
| NewsletterSave (dto : Body)
| NewsletterEdit (n : Newsletter.t) (dto : Body)
| NewsletterActivate (n : Newsletter.t)
| NewsletterDeactivate (n : Newsletter.t)
| NewsletterRemove (n : Newsletter.t)
| ResStatus (code : Z)
| ResJson (body : Json)
| Next (withArgument : bool)
| LogInfo (entity : Newsletter.t) (action : string)
          (loggedUser : option (Z * string)).

(** ** The monad *)

Inductive Outcome (A : Type) : Type :=
| Returned (a : A)
| Threw (e : Exn).
Arguments Returned {A} a.
Arguments Threw {A} e.

Record World (S : Type) : Type := mkWorld {
  store : S;
  events : list Event
}.
Arguments mkWorld {S} store events.
Arguments store {S} w.
Arguments events {S} w.

Definition M (S A : Type) : Type := World S -> Outcome A * World S.

Definition ret {S A} (a : A) : M S A := fun w => (Returned a, w).

Definition bind {S A B} (m : M S A) (k : A -> M S B) : M S B :=
  fun w =>
    match m w with
    | (Returned a, w') => k a w'
    | (Threw e, w') => (Threw e, w')
    end.

Definition throw {S A} (e : Exn) : M S A := fun w => (Threw e, w).

(** Records one call on a collaborator ([res], [next], the logger).  The
    collaborator is a recorder: the call is noted and returns.  An Express
    response refuses a second body ([res.json] throws once one has been
    sent), which the recorder does not; a statement about what follows a
    second [res.json] is a statement about the calls made, not about what
    the client receives. *)
Definition emit {S} (e : Event) : M S unit :=
  fun w => (Returned tt, mkWorld (store w) (events w ++ [e])).

(** A service read: logged, and the store is left as it is. *)
Definition callRead {S A} (e : Event) (op : S -> A) : M S A :=
  fun w => (Returned (op (store w)), mkWorld (store w) (events w ++ [e])).

(** A service write: logged; the service gives the new store and either a
    result or a failure of its own. *)
Definition callWrite {S A} (e : Event) (op : S -> Outcome A * S) : M S A :=
  fun w => let (r, s') := op (store w) in (r, mkWorld s' (events w ++ [e])).

(** [p.then(k)] that is neither awaited nor returned: the caller goes on,
    and a rejection in the chain does not reach it. *)
Definition detached {S A} (m : M S A) : M S unit :=
  fun w => (Returned tt, snd (m w)).

Declare Scope js_scope.
Delimit Scope js_scope with js.
Notation "'let*' x ':=' c1 'in' c2" := (bind c1 (fun x => c2))
  (at level 20, x pattern, c1 at level 100, c2 at level 200,
   only parsing) : js_scope.
Notation "c1 ';;;' c2" := (bind c1 (fun _ => c2))
  (at level 100, c2 at level 200, only parsing) : js_scope.
Open Scope js_scope.

(** [if (c) throw e]. *)
Definition throwIf {S} (c : bool) (e : Exn) : M S unit :=
  if c then throw e else ret tt.

(** ** The services

    The service classes live outside these sources.  They are taken as
    interfaces over an arbitrary store [S]: a read is a function of the
    store, a write gives a new store and either its result or a failure of
    the persistence layer, which the controller lets through unchanged. *)

Class UserService (S : Type) : Type := {
  user_findById : JsNumber -> S -> option User.t;
  user_findAll : Filter -> S -> list User.t;
  user_save : Body -> S -> Outcome User.t * S;
  user_edit : User.t -> Body -> S -> Outcome User.t * S;
  user_editById : JsNumber -> Body -> S -> Outcome User.t * S;
  user_remove : User.t -> S -> Outcome unit * S;
  user_promote : JsNumber -> S -> Outcome User.t * S
}.

Class NewsletterService (S : Type) : Type := {
  newsletter_findAll : Filter -> S -> list Newsletter.t;
  newsletter_findById : JsNumber -> S -> option Newsletter.t;
  newsletter_save : Body -> S -> Outcome Newsletter.t * S;
  newsletter_edit : Newsletter.t -> Body -> S -> Outcome Newsletter.t * S;
  newsletter_activate : Newsletter.t -> S -> Outcome unit * S;
  newsletter_deactivate : Newsletter.t -> S -> Outcome unit * S;
  newsletter_remove : Newsletter.t -> S -> Outcome unit * S
}.

(** [Pagination.getFilter] of [libs/pagination], also outside these
    sources. *)
Class Pagination : Type := {
  getFilter : Query -> Filter
}.

(** What [getPermissions] returns. *)
Record Permissions : Type := {
  loggedUser : User.t;
  permissionOnlyHimself : bool;
  permissionSuper : bool
}.

(** Identifiers bound where [NewsletterController.listAllFromLoggedUser]
    runs: its two parameters and the [const] declarations and the class of
    the module.  None of them is a controller action. *)
Inductive Binding : Type :=
| BoundImport (what : string)
| BoundParameter (what : string)
| BoundClass (what : string).

Definition newsletterModuleScope : list (string * Binding) :=
  [ ("req", BoundParameter "req");
    ("res", BoundParameter "res");
    ("HttpStatus", BoundImport "../errors/http-status");
    ("APIError", BoundImport "../errors/api-error");
    ("validationResult", BoundImport "express-validator");
    ("UserService", BoundImport "../services/user-service");
    ("NewsletterService", BoundImport "../services/newsletter-service");
    ("Pagination", BoundImport "../libs/pagination");
    ("userLogger", BoundImport "../../config/logger");
    ("NewsletterController", BoundClass "NewsletterController") ].

Fixpoint resolve (scope : list (string * Binding)) (identifier : string)
  : option Binding :=
  match scope with
  | (x, b) :: rest =>
      if String.eqb x identifier then Some b else resolve rest identifier
  | [] => None
  end.

(** ** NewsletterController *)

Module NewsletterController.
Section WithServices.
Context {S : Type} {US : UserService S} {NS : NewsletterService S}
        {PG : Pagination}.

(** [static validate(req, res)]: the value it returns tells whether a
    response was sent; no caller looks at it. *)
Definition validate (req : Request) : M S bool :=
  match validationErrors req with
  | [] => ret false
  | errs =>
      emit (ResStatus HttpStatus.UNPROCESSABLE_ENTITY) ;;;
      emit (ResJson (JErrors errs)) ;;;
      ret true
  end.

(** [static async getPermissions(req, blockedByChangePassword = true)]. *)
Definition getPermissions (req : Request) (blockedByChangePassword : bool)
  : M S Permissions :=
  let loggedUserId := userId req in
  let* found := callRead (UserFindById (Num loggedUserId))
                         (user_findById (Num loggedUserId)) in
  match found with
  | None =>
      throw (APIError "Unauthorized" HttpStatus.UNAUTHORIZED
                      "Logged user cannot be found!")
  | Some loggedUser =>
      throwIf (blockedByChangePassword && User.pendingPassword loggedUser)
        (APIError "Forbidden" HttpStatus.FORBIDDEN
           "You must change your password before proceeding with this operation.") ;;;
      ret {| loggedUser := loggedUser;
             permissionOnlyHimself :=
               negb (User.super loggedUser)
               || (User.super loggedUser && User.pendingConfirm loggedUser);
             permissionSuper :=
               User.super loggedUser && negb (User.pendingConfirm loggedUser) |}
  end.

(** [static logActivity(entity, action, loggedUser)]; the message is kept
    as the entity and the action it is built from. *)
Definition logActivity (entity : Newsletter.t) (action : string)
           (loggedUser : User.t) : M S unit :=
  emit (LogInfo entity action
          (Some (User.id loggedUser, User.name loggedUser))).

(** [async listAll(req, res)]. *)
Definition listAll (req : Request) : M S unit :=
  validate req ;;;
  let* perms := getPermissions req true in
  let filter := getFilter (query req) in
  let filter :=
    if permissionOnlyHimself perms || isTrue (q_loggedUser (query req))
    then setUserId filter (User.id (loggedUser perms))
    else filter in
  let filter :=
    match truthy (q_name (query req)) with
    | Some n => setName filter n
    | None => filter
    end in
  let* rows := callRead (NewsletterFindAll filter) (newsletter_findAll filter) in
  emit (ResJson (JNewsletterPage rows (page filter) (size filter))).

(** [async listAllFromLoggedUser(req, res)].  The assignment to
    [req.query.loggedUser] changes the request object only ([query'] is
    what [req.query] holds from then on); the callee of the next statement
    is the bare identifier [listAll], looked up in the scope of the
    method. *)
Definition listAllFromLoggedUser (req : Request) : M S unit :=
  let query' :=
    {| q_page := q_page (query req); q_size := q_size (query req);
       q_name := q_name (query req); q_loggedUser := QBoolean true |} in
  match resolve newsletterModuleScope "listAll" with
  | None => throw (ReferenceError "listAll")
  | Some _ => throw (TypeError "listAll is not a function")
  end.

(** [async findById(req, res)]. *)
Definition findById (req : Request) : M S unit :=
  validate req ;;;
  let* perms := getPermissions req true in
  let requestedId := parseInt (params_id req) in
  let* requestedNewsletter :=
    callRead (NewsletterFindById requestedId) (newsletter_findById requestedId) in
  match requestedNewsletter with
  | None =>
      throw (APIError "Not found" HttpStatus.NOT_FOUND "Newsletter not found")
  | Some requestedNewsletter =>
      throwIf (permissionOnlyHimself perms
               && negb (Newsletter.userId requestedNewsletter
                        =? User.id (loggedUser perms)))
        (APIError "Forbidden" HttpStatus.FORBIDDEN
           "You cannot access newsletter from another user") ;;;
      emit (ResJson (JNewsletter requestedNewsletter))
  end.

(** [async create(req, res)]. *)
Definition create (req : Request) : M S unit :=
  validate req ;;;
  let newsletterDto := body req in
  let* perms := getPermissions req true in
  throwIf (permissionOnlyHimself perms
           && strictNeOpt (User.id (loggedUser perms)) (b_userId newsletterDto))
    (APIError "Forbidden" HttpStatus.FORBIDDEN
       "You don't have privileges to create newsletters from another users") ;;;
  let* createdNewsletter :=
    callWrite (NewsletterSave newsletterDto) (newsletter_save newsletterDto) in
  emit (ResStatus HttpStatus.CREATED) ;;;
  emit (ResJson (JNewsletter createdNewsletter)) ;;;
  logActivity createdNewsletter "was created" (loggedUser perms).

(** [async edit(req, res)]. *)
Definition edit (req : Request) : M S unit :=
  validate req ;;;
  let* perms := getPermissions req true in
  let requestedId := parseInt (params_id req) in
  let newsletterDto := body req in
  let* requestedNewsletter :=
    callRead (NewsletterFindById requestedId) (newsletter_findById requestedId) in
  match requestedNewsletter with
  | None =>
      throw (APIError "Not found" HttpStatus.NOT_FOUND "Newsletter not found")
  | Some requestedNewsletter =>
      throwIf (permissionOnlyHimself perms
               && negb (User.id (loggedUser perms)
                        =? Newsletter.userId requestedNewsletter))
        (APIError "Forbidden" HttpStatus.FORBIDDEN
           "You don't have privileges to edit newsletters of another users") ;;;
      throwIf (permissionOnlyHimself perms
               && strictNeOpt (Newsletter.userId requestedNewsletter)
                              (b_userId newsletterDto))
        (APIError "Forbidden" HttpStatus.FORBIDDEN
           "You don't have privileges to transfer newsletters to another users") ;;;
      let* editedNewsletter :=
        callWrite (NewsletterEdit requestedNewsletter newsletterDto)
                  (newsletter_edit requestedNewsletter newsletterDto) in
      emit (ResStatus HttpStatus.OK) ;;;
      emit (ResJson (JNewsletter editedNewsletter)) ;;;
      logActivity editedNewsletter "was edited" (loggedUser perms)
  end.

(** [async activate(req, res)].  The response and the log entry are sent
    from the [then] of the service call, which is not awaited. *)
Definition activate (req : Request) : M S unit :=
  validate req ;;;
  let* perms := getPermissions req true in
  let requestedId := parseInt (params_id req) in
  let* requestedNewsletter :=
    callRead (NewsletterFindById requestedId) (newsletter_findById requestedId) in
  match requestedNewsletter with
  | None =>
      throw (APIError "Not found" HttpStatus.NOT_FOUND "Newsletter not found")
  | Some requestedNewsletter =>
      throwIf (permissionOnlyHimself perms
               && negb (User.id (loggedUser perms)
                        =? Newsletter.userId requestedNewsletter))
        (APIError "Forbidden" HttpStatus.FORBIDDEN
           "You don't have privileges to edit newsletters of another users") ;;;
      detached
        (callWrite (NewsletterActivate requestedNewsletter)
                   (newsletter_activate requestedNewsletter) ;;;
         emit (ResStatus HttpStatus.OK) ;;;
         emit (ResJson (JNewsletterMessage "Newsletter was activated successfully"
                       requestedNewsletter)) ;;;
         logActivity requestedNewsletter "was activated" (loggedUser perms))
  end.

(** [async deactivate(req, res)]. *)
Definition deactivate (req : Request) : M S unit :=
  validate req ;;;
  let* perms := getPermissions req true in
  let requestedId := parseInt (params_id req) in
  let* requestedNewsletter :=
    callRead (NewsletterFindById requestedId) (newsletter_findById requestedId) in
  match requestedNewsletter with
  | None =>
      throw (APIError "Not found" HttpStatus.NOT_FOUND "Newsletter not found")
  | Some requestedNewsletter =>
      throwIf (permissionOnlyHimself perms
               && negb (User.id (loggedUser perms)
                        =? Newsletter.userId requestedNewsletter))
        (APIError "Forbidden" HttpStatus.FORBIDDEN
           "You don't have privileges to edit newsletters of another users") ;;;
      detached
        (callWrite (NewsletterDeactivate requestedNewsletter)
                   (newsletter_deactivate requestedNewsletter) ;;;
         emit (ResStatus HttpStatus.OK) ;;;
         emit (ResJson (JNewsletterMessage "Newsletter was deactivated successfully"
                       requestedNewsletter)) ;;;
         logActivity requestedNewsletter "was deactivated" (loggedUser perms))
  end.

(** [async remove(req, res)]. *)
Definition remove (req : Request) : M S unit :=
  validate req ;;;
  let* perms := getPermissions req true in
  let requestedId := parseInt (params_id req) in
  let* requestedNewsletter :=
    callRead (NewsletterFindById requestedId) (newsletter_findById requestedId) in
  match requestedNewsletter with
  | None =>
      throw (APIError "Not found" HttpStatus.NOT_FOUND "Newsletter not found")
  | Some requestedNewsletter =>
      throwIf (permissionOnlyHimself perms
               && negb (User.id (loggedUser perms)
                        =? Newsletter.userId requestedNewsletter))
        (APIError "Forbidden" HttpStatus.FORBIDDEN
           "You don't have privileges to edit newsletters of another users") ;;;
      detached
        (callWrite (NewsletterRemove requestedNewsletter)
                   (newsletter_remove requestedNewsletter) ;;;
         emit (ResStatus HttpStatus.NO_CONTENT) ;;;
         emit (ResJson JEmpty) ;;;
         logActivity requestedNewsletter "was removed" (loggedUser perms))
  end.
End WithServices.
End NewsletterController.

(** ** UserController *)

Module UserController.
Section WithServices.
Context {S : Type} {US : UserService S} {PG : Pagination}.

(** [static validate(req, res)]. *)
Definition validate (req : Request) : M S bool :=
  match validationErrors req with
  | [] => ret false
  | errs =>
      emit (ResStatus HttpStatus.UNPROCESSABLE_ENTITY) ;;;
      emit (ResJson (JErrors errs)) ;;;
      ret true
  end.

(** [static async getPermissions(req, blockChangePassword = true)]. *)
Definition getPermissions (req : Request) (blockChangePassword : bool)
  : M S Permissions :=
  let loggedUserId := userId req in
  let* found := callRead (UserFindById (Num loggedUserId))
                         (user_findById (Num loggedUserId)) in
  match found with
  | None =>
      throw (APIError "Unauthorized" HttpStatus.UNAUTHORIZED
                      "auth.logged-user-not-found")
  | Some loggedUser =>
      throwIf (blockChangePassword && User.pendingPassword loggedUser)
        (APIError "Forbidden" HttpStatus.FORBIDDEN
           "auth.pendant-change-temporary-password") ;;;
      ret {| loggedUser := loggedUser;
             permissionOnlyHimself :=
               negb (User.super loggedUser)
               || (User.super loggedUser && User.pendingConfirm loggedUser);
             permissionSuper :=
               User.super loggedUser && negb (User.pendingConfirm loggedUser) |}
  end.

(** [async listAll(req, res, next)]. *)
Definition listAll (req : Request) : M S unit :=
  validate req ;;;
  let* perms := getPermissions req true in
  let filter := getFilter (query req) in
  let filter :=
    match truthy (q_name (query req)) with
    | Some n => setName filter n
    | None => filter
    end in
  let* json :=
    if negb (permissionOnlyHimself perms)
    then let* rows := callRead (UserFindAll filter) (user_findAll filter) in
         ret (JUserPage rows (page filter) (size filter))
    else ret (JUserSinglePage (loggedUser perms) (page filter) (size filter)) in
  emit (ResJson json) ;;;
  emit (Next false).

(** [async findById(req, res, next)]. *)
Definition findById (req : Request) : M S unit :=
  validate req ;;;
  let* perms := getPermissions req false in
  let requestedId := parseInt (params_id req) in
  if permissionOnlyHimself perms then
    throwIf (strictNe (Num (User.id (loggedUser perms))) requestedId)
      (APIError "Forbidden" HttpStatus.FORBIDDEN
         "user.not-have-privileges-to-another-user-data") ;;;
    throwIf (User.pendingPassword (loggedUser perms))
      (APIError "Forbidden" HttpStatus.FORBIDDEN
         "auth.pendant-change-temporary-password") ;;;
    emit (ResJson (JUser (loggedUser perms))) ;;;
    emit (Next true)
  else
    let* requestedUser :=
      callRead (UserFindById requestedId) (user_findById requestedId) in
    match requestedUser with
    | None => throw (APIError "Not found" HttpStatus.NOT_FOUND "user.not-found")
    | Some requestedUser =>
        emit (ResJson (JUser requestedUser)) ;;;
        emit (Next false)
    end.

(** [async remove(req, res, next)].  The block of the self-only caller
    ends with [next(res)] and no [return]: control goes on to the
    statements after the block. *)
Definition remove (req : Request) : M S unit :=
  validate req ;;;
  let* perms := getPermissions req false in
  let requestedId := parseInt (params_id req) in
  (if permissionOnlyHimself perms then
     throwIf (strictNe (Num (User.id (loggedUser perms))) requestedId)
       (APIError "Forbidden" HttpStatus.FORBIDDEN
          "user.not-have-privileges-to-delete-users") ;;;
     throwIf (User.pendingPassword (loggedUser perms))
       (APIError "Forbidden" HttpStatus.FORBIDDEN
          "auth.pendant-change-temporary-password") ;;;
     callWrite (UserRemove (loggedUser perms)) (user_remove (loggedUser perms)) ;;;
     emit (ResStatus HttpStatus.NO_CONTENT) ;;;
     emit (ResJson JEmpty) ;;;
     emit (Next true)
   else ret tt) ;;;
  throwIf (strictEq (Num (User.id (loggedUser perms))) requestedId
           && User.pendingPassword (loggedUser perms))
    (APIError "Forbidden" HttpStatus.FORBIDDEN
       "auth.pendant-change-temporary-password") ;;;
  let* requestedUser :=
    callRead (UserFindById requestedId) (user_findById requestedId) in
  match requestedUser with
  | None => throw (APIError "Not found" HttpStatus.NOT_FOUND "user.not-found")
  | Some requestedUser =>
      callWrite (UserRemove requestedUser) (user_remove requestedUser) ;;;
      emit (ResStatus HttpStatus.NO_CONTENT) ;;;
      emit (ResJson JEmpty) ;;;
      emit (Next false)
  end.

(** [async create(req, res, next)]. *)
Definition create (req : Request) : M S unit :=
  validate req ;;;
  let* perms := getPermissions req true in
  throwIf (permissionOnlyHimself perms)
    (APIError "Forbidden" HttpStatus.FORBIDDEN
       "user.not-have-privileges-to-create-users") ;;;
  let dto :=
    {| b_name := b_name (body req); b_email := b_email (body req);
       b_password := b_password (body req); b_super := b_super (body req);
       b_pendingConfirm := None; b_userId := None |} in
  let* createdUser := callWrite (UserSave dto) (user_save dto) in
  emit (ResStatus HttpStatus.CREATED) ;;;
  emit (ResJson (JUser createdUser)) ;;;
  emit (Next false).

(** [async edit(req, res, next)]. *)
Definition edit (req : Request) : M S unit :=
  validate req ;;;
  let* perms := getPermissions req true in
  let requestedId := parseInt (params_id req) in
  if permissionOnlyHimself perms then
    throwIf (strictNe (Num (User.id (loggedUser perms))) requestedId)
      (APIError "Forbidden" HttpStatus.FORBIDDEN
         "user.not-have-privileges-to-edit-users") ;;;
    let dto :=
      {| b_name := b_name (body req); b_email := b_email (body req);
         b_password := b_password (body req); b_super := None;
         b_pendingConfirm := None; b_userId := None |} in
    let* editedUser :=
      callWrite (UserEdit (loggedUser perms) dto)
                (user_edit (loggedUser perms) dto) in
    emit (ResStatus HttpStatus.OK) ;;;
    emit (ResJson (JUser editedUser)) ;;;
    emit (Next true)
  else
    let userDto :=
      {| b_name := b_name (body req); b_email := b_email (body req);
         b_password := b_password (body req); b_super := None;
         b_pendingConfirm := b_pendingConfirm (body req); b_userId := None |} in
    let* editedUser :=
      callWrite (UserEditById requestedId userDto)
                (user_editById requestedId userDto) in
    emit (ResStatus HttpStatus.OK) ;;;
    emit (ResJson (JUser editedUser)) ;;;
    emit (Next false).

(** [async promote(req, res, next)]. *)
Definition promote (req : Request) : M S unit :=
  validate req ;;;
  let* perms := getPermissions req true in
  throwIf (negb (permissionSuper perms))
    (APIError "Forbidden" HttpStatus.FORBIDDEN
       "user.not-have-privileges-to-promote-users") ;;;
  let requestedId := parseInt (params_id req) in
  throwIf (strictEq (Num (User.id (loggedUser perms))) requestedId)
    (APIError "Bad Request" HttpStatus.BAD_REQUEST
       "user.not-have-privileges-to-promote-yourself") ;;;
  let* user := callWrite (UserPromote requestedId) (user_promote requestedId) in
  emit (ResStatus HttpStatus.OK) ;;;
  emit (ResJson (JUserMessage "user.promotion-successfully" user)) ;;;
  emit (Next false).
End WithServices.
End UserController.

(** ** Feed *)

Module Feed.
(** [static PERIODICITY]. *)
Module PERIODICITY.
Definition LAST : Z := 1.
Definition DAILY : Z := 2.
Definition WEEKLY : Z := 3.
End PERIODICITY.

(** [static DAY_OF_WEEK]. *)
Module DAY_OF_WEEK.
Definition SUNDAY : Z := 0.
Definition MONDAY : Z := 1.
Definition TUESDAY : Z := 2.
Definition WEDNESDAY : Z := 3.
Definition THURSDAY : Z := 4.
Definition FRIDAY : Z := 5.
Definition SATURDAY : Z := 6.
End DAY_OF_WEEK.

(** The attributes given to [Feed.init]; a column that is [null] is
    [None]. *)
Record t : Type := Build {
  name : option string;
  url : option string;
  author : option string;
  partial : option bool;
  subject : option string;
  locale : option string;
  articleSelector : option string;
  maxPosts : option Z;
  updatePeriodicity : option Z;
  dayOfWeek : option Z
}.

(** [String.prototype.toLowerCase] on one ASCII character; the locales
    compared against are ASCII, and no character outside ASCII has one
    of their letters as its lower case. *)
Definition toLowerAscii (c : ascii) : ascii :=
  let n := nat_of_ascii c in
  if ((65 <=? n) && (n <=? 90))%nat then ascii_of_nat (n + 32) else c.

Fixpoint toLowerCase (s : string) : string :=
  match s with
  | String c rest => String (toLowerAscii c) (toLowerCase rest)
  | EmptyString => EmptyString
  end.

(** [getEncoding()]: the [switch] compares with [===]. *)
Definition getEncoding (this : t) : Outcome string :=
  match locale this with
  | None => Threw (TypeError "Cannot read properties of null (reading 'toLowerCase')")
  | Some l =>
      let key := toLowerCase l in
      if String.eqb key "pt-br" then Returned "Windows-1252"
      else if String.eqb key "en-us" then Returned "Windows-1252"
      else Returned "UTF-8"
  end.
End Feed.

(** ** An in-memory store *)

(** [haystack.includes(needle)]. *)
Fixpoint includes (needle haystack : string) : bool :=
  String.prefix needle haystack
  || match haystack with
     | String _ rest => includes needle rest
     | EmptyString => false
     end.

Record MemStore : Type := {
  users : gmap Z User.t;
  newsletters : gmap Z Newsletter.t
}.

Definition matchesName (f : Filter) (n : string) : bool :=
  match f_name f with
  | Some wanted => includes wanted n
  | None => true
  end.

Definition matchesOwner (f : Filter) (owner : Z) : bool :=
  match f_userId f with
  | Some uid => owner =? uid
  | None => true
  end.

Definition freshId {A} (m : gmap Z A) : Z :=
  1 + foldr Z.max 0 (fst <$> map_to_list m).

Definition orElse {A} (o : option A) (d : A) : A :=
  match o with
  | Some a => a
  | None => d
  end.

Definition lookupNum {A} (id : JsNumber) (m : gmap Z A) : option A :=
  match id with
  | Num z => m !! z
  | NaN => None
  end.

Definition withUsers (s : MemStore) (us : gmap Z User.t) : MemStore :=
  {| users := us; newsletters := newsletters s |}.

Definition withNewsletters (s : MemStore) (ns : gmap Z Newsletter.t) : MemStore :=
  {| users := users s; newsletters := ns |}.

Definition patchUser (u : User.t) (dto : Body) : User.t :=
  User.Build (User.id u) (orElse (b_name dto) (User.name u)) (User.super u)
    (orElse (b_pendingConfirm dto) (User.pendingConfirm u))
    (User.pendingPassword u).

Definition patchNewsletter (n : Newsletter.t) (dto : Body) : Newsletter.t :=
  Newsletter.Build (Newsletter.id n) (orElse (b_name dto) (Newsletter.name n))
    (orElse (b_userId dto) (Newsletter.userId n)) (Newsletter.active n).

Definition setActive (n : Newsletter.t) (a : bool) : Newsletter.t :=
  Newsletter.Build (Newsletter.id n) (Newsletter.name n) (Newsletter.userId n) a.

(** Modelled from the spec: the user service of [services/user-service].
    The spec names its operations ([findById], [findAll(filter)],
    [save(dto)], [edit(entity, dto)], [editById(id, dto)], [remove(entity)],
    [promote(id)]) and a filter with an optional name and owner; here each
    operation has the plain meaning of its name on a table keyed by id, a
    promotion leaves the grant pending confirmation, and the cut into
    pages is left to the pagination helper. *)
#[export] Instance memUserService : UserService MemStore := {
  user_findById id s := lookupNum id (users s);
  user_findAll f s :=
    List.filter (fun u => matchesName f (User.name u))
                (snd <$> map_to_list (users s));
  user_save dto s :=
    let u := User.Build (freshId (users s)) (orElse (b_name dto) "")
               (orElse (b_super dto) false) false false in
    (Returned u, withUsers s (<[User.id u := u]> (users s)));
  user_edit u dto s :=
    let u' := patchUser u dto in
    (Returned u', withUsers s (<[User.id u := u']> (users s)));
  user_editById id dto s :=
    match lookupNum id (users s) with
    | Some u =>
        let u' := patchUser u dto in
        (Returned u', withUsers s (<[User.id u := u']> (users s)))
    | None => (Threw (APIError "Not found" HttpStatus.NOT_FOUND "user.not-found"), s)
    end;
  user_remove u s := (Returned tt, withUsers s (delete (User.id u) (users s)));
  user_promote id s :=
    match lookupNum id (users s) with
    | Some u =>
        let u' := User.Build (User.id u) (User.name u) true true
                    (User.pendingPassword u) in
        (Returned u', withUsers s (<[User.id u := u']> (users s)))
    | None => (Threw (APIError "Not found" HttpStatus.NOT_FOUND "user.not-found"), s)
    end
}.

(** Modelled from the spec: the newsletter service of
    [services/newsletter-service], with the operations the spec names
    ([findAll(filter)], [findById], [save(dto)], [edit(entity, dto)],
    [remove(entity)], [activate(entity)], [deactivate(entity)]), read in
    the same plain way. *)
#[export] Instance memNewsletterService : NewsletterService MemStore := {
  newsletter_findAll f s :=
    List.filter (fun n => matchesName f (Newsletter.name n)
                          && matchesOwner f (Newsletter.userId n))
                (snd <$> map_to_list (newsletters s));
  newsletter_findById id s := lookupNum id (newsletters s);
  newsletter_save dto s :=
    let n := Newsletter.Build (freshId (newsletters s)) (orElse (b_name dto) "")
               (orElse (b_userId dto) 0) true in
    (Returned n, withNewsletters s (<[Newsletter.id n := n]> (newsletters s)));
  newsletter_edit n dto s :=
    let n' := patchNewsletter n dto in
    (Returned n', withNewsletters s (<[Newsletter.id n := n']> (newsletters s)));
  newsletter_activate n s :=
    (Returned tt,
     withNewsletters s (<[Newsletter.id n := setActive n true]> (newsletters s)));
  newsletter_deactivate n s :=
    (Returned tt,
     withNewsletters s (<[Newsletter.id n := setActive n false]> (newsletters s)));
  newsletter_remove n s :=
    (Returned tt, withNewsletters s (delete (Newsletter.id n) (newsletters s)))
}.

Definition toOption (n : JsNumber) : option Z :=
  match n with
  | Num z => Some z
  | NaN => None
  end.

(** Modelled from the spec: [Pagination.getFilter] of [libs/pagination],
    which the spec describes as giving a filter object with [page] and
    [size] and an optional name and owner; the two numbers are read from
    the query string. *)
#[export] Instance queryPagination : Pagination := {
  getFilter q :=
    {| page := match q_page q with Some p => toOption (parseInt p) | None => None end;
       size := match q_size q with Some p => toOption (parseInt p) | None => None end;
       f_name := None;
       f_userId := None |}
}.

(** A store with five users and three newsletters. *)
Definition alice : User.t := User.Build 1 "alice" false false false.
Definition bob : User.t := User.Build 2 "bob" true false false.
Definition carol : User.t := User.Build 3 "carol" true true false.
Definition dave : User.t := User.Build 4 "dave" false false true.
Definition erin : User.t := User.Build 5 "erin" true false true.

Definition weekly : Newsletter.t := Newsletter.Build 10 "Weekly digest" 1 true.
Definition daily : Newsletter.t := Newsletter.Build 11 "Daily news" 1 true.
Definition bobsWeekly : Newsletter.t := Newsletter.Build 12 "Weekly tech" 2 true.

Definition sampleStore : MemStore :=
  {| users := list_to_map [(1, alice); (2, bob); (3, carol); (4, dave); (5, erin)];
     newsletters := list_to_map [(10, weekly); (11, daily); (12, bobsWeekly)] |}.

Definition sampleWorld : World MemStore := mkWorld sampleStore [].

Definition noQuery : Query :=
  {| q_page := None; q_size := None; q_name := None; q_loggedUser := QUndefined |}.

Definition noBody : Body :=
  {| b_name := None; b_email := None; b_password := None; b_super := None;
     b_pendingConfirm := None; b_userId := None |}.

(** A request of caller [uid] on the resource [id]. *)
Definition request (uid : Z) (id : string) : Request :=
  {| userId := uid; params_id := id; query := noQuery; body := noBody;
     validationErrors := [] |}.

(** The same request asking for the names that contain [n]. *)
Definition withName (req : Request) (n : string) : Request :=
  {| userId := userId req; params_id := params_id req;
     query := {| q_page := q_page (query req); q_size := q_size (query req);
                 q_name := Some n; q_loggedUser := q_loggedUser (query req) |};
     body := body req; validationErrors := validationErrors req |}.

(** The same request with a payload naming [n] and owned by [uid]. *)
Definition withPayload (req : Request) (n : string) (uid : Z) : Request :=
  {| userId := userId req; params_id := params_id req; query := query req;
     body := {| b_name := Some n; b_email := None; b_password := None;
                b_super := None; b_pendingConfirm := None;
                b_userId := Some uid |};
     validationErrors := validationErrors req |}.

(** The same request after validation has left the errors [errs]. *)
Definition withErrors (req : Request) (errs : list FieldError) : Request :=
  {| userId := userId req; params_id := params_id req; query := query req;
     body := body req; validationErrors := errs |}.

(** The same request with a user payload. *)
Definition withUserPayload (req : Request) (n : string) (sup pending : bool)
  : Request :=
  {| userId := userId req; params_id := params_id req; query := query req;
     body := {| b_name := Some n; b_email := Some "new@example.org";
                b_password := Some "secret"; b_super := Some sup;
                b_pendingConfirm := Some pending; b_userId := Some 7 |};
     validationErrors := validationErrors req |}.

(** The same request with [req.query.loggedUser] set to [v]. *)
Definition withLoggedUser (req : Request) (v : QueryValue) : Request :=
  {| userId := userId req; params_id := params_id req;
     query := {| q_page := q_page (query req); q_size := q_size (query req);
                 q_name := q_name (query req); q_loggedUser := v |};
     body := body req; validationErrors := validationErrors req |}.

(** A store that refuses every write: the reads are those of the
    in-memory services, every write fails and changes nothing. *)
Definition readOnly : Exn := APIError "Service Unavailable" 503 "read-only".

Definition readOnlyUserService : UserService MemStore := {|
  user_findById := user_findById (UserService:=memUserService);
  user_findAll := user_findAll (UserService:=memUserService);
  user_save := fun _ s => (Threw readOnly, s);
  user_edit := fun _ _ s => (Threw readOnly, s);
  user_editById := fun _ _ s => (Threw readOnly, s);
  user_remove := fun _ s => (Threw readOnly, s);
  user_promote := fun _ s => (Threw readOnly, s)
|}.

(** A user service that keeps removed records: the in-memory service,
    except that a removal succeeds and leaves the store as it was. *)
Definition keepingUserService : UserService MemStore := {|
  user_findById := user_findById (UserService:=memUserService);
  user_findAll := user_findAll (UserService:=memUserService);
  user_save := user_save (UserService:=memUserService);
  user_edit := user_edit (UserService:=memUserService);
  user_editById := user_editById (UserService:=memUserService);
  user_remove := fun _ s => (Returned tt, s);
  user_promote := user_promote (UserService:=memUserService)
|}.

Definition readOnlyNewsletterService : NewsletterService MemStore := {|
  newsletter_findAll := newsletter_findAll (NewsletterService:=memNewsletterService);
  newsletter_findById := newsletter_findById (NewsletterService:=memNewsletterService);
  newsletter_save := fun _ s => (Threw readOnly, s);
  newsletter_edit := fun _ _ s => (Threw readOnly, s);
  newsletter_activate := fun _ s => (Threw readOnly, s);
  newsletter_deactivate := fun _ s => (Threw readOnly, s);
  newsletter_remove := fun _ s => (Threw readOnly, s)
|}.

Definition nameRequired : FieldError := {| param := "name"; msg := "required" |}.

(** A feed of locale [l]. *)
Definition feedOf (l : string) : Feed.t :=
  Feed.Build (Some "Example") None None None None (Some l) None None
    (Some Feed.PERIODICITY.DAILY) None.

(** ** Vocabulary of the statements *)

(** The world [w] after the calls [es], none of which wrote to the store. *)
Definition after {S} (w : World S) (es : list Event) : World S :=
  mkWorld (store w) (events w ++ es).

(** The calls [validate] makes on the response. *)
Definition validateEvents (req : Request) : list Event :=
  match validationErrors req with
  | [] => []
  | errs => [ResStatus HttpStatus.UNPROCESSABLE_ENTITY; ResJson (JErrors errs)]
  end.

(** The identity load of [getPermissions]. *)
Definition identityLoad (req : Request) : Event := UserFindById (Num (userId req)).

(** The permission result computed from a caller's record. *)
Definition permissionsOf (u : User.t) : Permissions :=
  {| loggedUser := u;
     permissionOnlyHimself :=
       negb (User.super u) || (User.super u && User.pendingConfirm u);
     permissionSuper := User.super u && negb (User.pendingConfirm u) |}.

Section Actions.
Context {S : Type} {US : UserService S} {NS : NewsletterService S}
        {PG : Pagination}.

(** The actions that call [getPermissions] with its default second
    argument, so with the pending-password gate on. *)
Definition gatedActions : list (Request -> M S unit) :=
  [ NewsletterController.listAll; NewsletterController.findById;
    NewsletterController.create; NewsletterController.edit;
    NewsletterController.activate; NewsletterController.deactivate;
    NewsletterController.remove;
    UserController.listAll; UserController.create; UserController.edit;
    UserController.promote ].

(** The two actions that pass [false] and test the flag themselves. *)
Definition selfGatedActions : list (Request -> M S unit) :=
  [ UserController.findById; UserController.remove ].

(** The actions that only read. *)
Definition readActions : list (Request -> M S unit) :=
  [ NewsletterController.listAll; NewsletterController.listAllFromLoggedUser;
    NewsletterController.findById; UserController.listAll;
    UserController.findById ].

(** The actions of the user controller. *)
Definition userActions : list (Request -> M S unit) :=
  [ UserController.listAll; UserController.findById; UserController.remove;
    UserController.create; UserController.edit; UserController.promote ].

(** The three newsletter actions whose service call is not awaited, each
    with the call it makes, the status and the body it answers with and
    the phrase it logs. *)
Definition detachedActions
  : list ((Request -> M S unit) * (Newsletter.t -> Event)
          * (Newsletter.t -> S -> Outcome unit * S)
          * (Z * (Newsletter.t -> Json) * string)) :=
  [ (NewsletterController.activate, NewsletterActivate, newsletter_activate,
     (HttpStatus.OK,
      JNewsletterMessage "Newsletter was activated successfully",
      "was activated"));
    (NewsletterController.deactivate, NewsletterDeactivate,
     newsletter_deactivate,
     (HttpStatus.OK,
      JNewsletterMessage "Newsletter was deactivated successfully",
      "was deactivated"));
    (NewsletterController.remove, NewsletterRemove, newsletter_remove,
     (HttpStatus.NO_CONTENT, fun _ => JEmpty, "was removed")) ].

(** Every action but [UserController.remove]. *)
Definition actionsButUserRemove : list (Request -> M S unit) :=
  gatedActions
  ++ [ UserController.findById; NewsletterController.listAllFromLoggedUser ].
End Actions.

(** *** How a computation treats the store and the list of calls *)

Section Behaviour.
Context {S A : Type}.

(** [m] never changes the store. *)
Definition quiet (m : M S A) : Prop :=
  forall w, store (snd (m w)) = store w.

(** [m] never throws. *)
Definition total (m : M S A) : Prop :=
  forall w, exists a, fst (m w) = Returned a.

(** When [m] throws, the store is as it was before. *)
Definition failsClean (m : M S A) : Prop :=
  forall w e, fst (m w) = Threw e -> store (snd (m w)) = store w.

(** [m] only adds to the list of calls. *)
Definition extends (m : M S A) : Prop :=
  forall w, exists es, events (snd (m w)) = events w ++ es.
End Behaviour.

(** The calls that ask a service to change the store. *)
Definition isServiceWrite (e : Event) : bool :=
  match e with
  | UserSave _ | UserEdit _ _ | UserEditById _ _ | UserRemove _
  | UserPromote _ | NewsletterSave _ | NewsletterEdit _ _
  | NewsletterActivate _ | NewsletterDeactivate _ | NewsletterRemove _ => true
  | _ => false
  end.

Definition notServiceWrite (e : Event) : bool := negb (isServiceWrite e).

(** The calls on the activity log. *)
Definition notLogInfo (e : Event) : bool :=
  match e with
  | LogInfo _ _ _ => false
  | _ => true
  end.

(** The calls that send a response body. *)
Definition isResJson (e : Event) : bool :=
  match e with
  | ResJson _ => true
  | _ => false
  end.

Definition notResJson (e : Event) : bool := negb (isResJson e).

(** How many response bodies a list of calls sends. *)
Fixpoint countResJson (es : list Event) : nat :=
  match es with
  | e :: rest => ((if isResJson e then 1 else 0) + countResJson rest)%nat
  | [] => 0%nat
  end.

Section Calls.
Context {S A : Type}.

(** Every call [m] makes satisfies [P]. *)
Definition emitsOnly (P : Event -> bool) (m : M S A) : Prop :=
  forall w, exists es,
    events (snd (m w)) = events w ++ es /\ forallb P es = true.

(** [m] sends at most [n] response bodies. *)
Definition respondsAtMost (n : nat) (m : M S A) : Prop :=
  forall w, exists es,
    events (snd (m w)) = events w ++ es /\ (countResJson es <= n)%nat.
End Calls.

(** A service write that fails leaves the store as it was. *)
Definition atomic {S A} (op : S -> Outcome A * S) : Prop :=
  forall s e, fst (op s) = Threw e -> snd (op s) = s.

Class AtomicWrites (S : Type) {US : UserService S} {NS : NewsletterService S}
  : Prop := {
  user_save_atomic : forall dto, atomic (user_save dto);
  user_edit_atomic : forall u dto, atomic (user_edit u dto);
  user_editById_atomic : forall id dto, atomic (user_editById id dto);
  user_remove_atomic : forall u, atomic (user_remove u);
  user_promote_atomic : forall id, atomic (user_promote id);
  newsletter_save_atomic : forall dto, atomic (newsletter_save dto);
  newsletter_edit_atomic : forall n dto, atomic (newsletter_edit n dto);
  newsletter_activate_atomic : forall n, atomic (newsletter_activate n);
  newsletter_deactivate_atomic : forall n, atomic (newsletter_deactivate n);
  newsletter_remove_atomic : forall n, atomic (newsletter_remove n)
}.

(** ** Proof support *)

Ltac unfold_js :=
  unfold throwIf, detached, after, validateEvents, identityLoad,
    permissionsOf in *;
  unfold bind, ret, throw, emit, callRead, callWrite in *.

Ltac unfold_actions :=
  unfold NewsletterController.listAll, NewsletterController.findById,
    NewsletterController.create, NewsletterController.edit,
    NewsletterController.activate, NewsletterController.deactivate,
    NewsletterController.remove,
    UserController.listAll, UserController.findById, UserController.remove,
    UserController.create, UserController.edit, UserController.promote in *;
  unfold NewsletterController.logActivity, NewsletterController.validate,
    NewsletterController.getPermissions, UserController.validate,
    UserController.getPermissions in *.

(** Lists of events are compared after reassociating to the right. *)
Ltac tidy_events :=
  cbn [store events fst snd app]; rewrite <- ?app_assoc, ?app_nil_r; cbn [app].

Ltac same_world := tidy_events; reflexivity.

(** Opens an action on a world given by its parts and splits on whether
    validation left errors. *)
Ltac enter w :=
  destruct w as [s0 es0]; unfold_actions; unfold_js; cbn [store events] in *;
  destruct (validationErrors _); cbn [store events].

(** Feeds the facts at hand to the running action, one test at a time. *)
Ltac reduce_tests :=
  cbn [store events negb andb orb loggedUser permissionOnlyHimself
       permissionSuper].

Ltac feed :=
  reduce_tests;
  repeat match goal with
         | H : ?x = _ |- context [?x] =>
             lazymatch x with
             | true => fail
             | false => fail
             | _ => rewrite H; reduce_tests
             end
         end.

Section Properties.
Context {S : Type} {US : UserService S} {NS : NewsletterService S}
        {PG : Pagination}.

Lemma after_nil (w : World S) : after w [] = w.
Proof. destruct w; unfold after; cbn. now rewrite app_nil_r. Qed.

Lemma after_after (w : World S) (es1 es2 : list Event) :
  after (after w es1) es2 = after w (es1 ++ es2).
Proof. unfold after; cbn. now rewrite app_assoc. Qed.

Lemma newsletter_validate_run (req : Request) (w : World S) :
  exists b, NewsletterController.validate req w
            = (Returned b, after w (validateEvents req)).
Proof.
  unfold NewsletterController.validate, validateEvents.
  destruct (validationErrors req).
  - exists false. now rewrite after_nil.
  - exists true. unfold_js. same_world.
Qed.

Lemma user_validate_run (req : Request) (w : World S) :
  exists b, UserController.validate req w
            = (Returned b, after w (validateEvents req)).
Proof.
  unfold UserController.validate, validateEvents.
  destruct (validationErrors req).
  - exists false. now rewrite after_nil.
  - exists true. unfold_js. same_world.
Qed.

(** [getPermissions] on a caller that is found and passes the gate. *)
Lemma newsletter_getPermissions_run req block (w : World S) u :
  user_findById (Num (userId req)) (store w) = Some u ->
  block && User.pendingPassword u = false ->
  NewsletterController.getPermissions req block w
  = (Returned (permissionsOf u), after w [identityLoad req]).
Proof.
  intros Hu Hgate. unfold NewsletterController.getPermissions.
  unfold_js. cbn. rewrite Hu, Hgate. reflexivity.
Qed.

Lemma user_getPermissions_run req block (w : World S) u :
  user_findById (Num (userId req)) (store w) = Some u ->
  block && User.pendingPassword u = false ->
  UserController.getPermissions req block w
  = (Returned (permissionsOf u), after w [identityLoad req]).
Proof.
  intros Hu Hgate. unfold UserController.getPermissions.
  unfold_js. cbn. rewrite Hu, Hgate. reflexivity.
Qed.

(** Conversely, a permission result comes from a caller that was found
    and passed the gate. *)
Lemma newsletter_getPermissions_inv req block (w w1 : World S) perms :
  NewsletterController.getPermissions req block w = (Returned perms, w1) ->
  exists u, user_findById (Num (userId req)) (store w) = Some u
            /\ block && User.pendingPassword u = false
            /\ perms = permissionsOf u
            /\ w1 = after w [identityLoad req].
Proof.
  unfold NewsletterController.getPermissions. unfold_js. cbn.
  destruct (user_findById _ _) as [u|]; [|discriminate].
  destruct (block && User.pendingPassword u) eqn:Hgate; [discriminate|].
  intros H. injection H as <- <-. now exists u.
Qed.

Lemma user_getPermissions_inv req block (w w1 : World S) perms :
  UserController.getPermissions req block w = (Returned perms, w1) ->
  exists u, user_findById (Num (userId req)) (store w) = Some u
            /\ block && User.pendingPassword u = false
            /\ perms = permissionsOf u
            /\ w1 = after w [identityLoad req].
Proof.
  unfold UserController.getPermissions. unfold_js. cbn.
  destruct (user_findById _ _) as [u|]; [|discriminate].
  destruct (block && User.pendingPassword u) eqn:Hgate; [discriminate|].
  intros H. injection H as <- <-. now exists u.
Qed.

(** C1. For every caller record that is found and passes the
    pending-password gate, [getPermissions] of both controllers returns
    [permissionOnlyHimself = NOT super OR (super AND pendingConfirm)] and
    [permissionSuper = super AND NOT pendingConfirm], after the identity
    load alone.  Hence a caller that is not super gets self-only and not
    super whatever [pendingConfirm] is, a super caller pending
    confirmation gets the same, and a confirmed super caller gets not
    self-only and super. *)
Theorem getPermissions_flags req block (w : World S) u :
  user_findById (Num (userId req)) (store w) = Some u ->
  block && User.pendingPassword u = false ->
  let expected :=
    {| loggedUser := u;
       permissionOnlyHimself :=
         negb (User.super u) || (User.super u && User.pendingConfirm u);
       permissionSuper := User.super u && negb (User.pendingConfirm u) |} in
  NewsletterController.getPermissions req block w
    = (Returned expected, after w [UserFindById (Num (userId req))])
  /\ UserController.getPermissions req block w
    = (Returned expected, after w [UserFindById (Num (userId req))])
  /\ (User.super u = false ->
      permissionOnlyHimself expected = true
      /\ permissionSuper expected = false)
  /\ (User.super u = true -> User.pendingConfirm u = true ->
      permissionOnlyHimself expected = true
      /\ permissionSuper expected = false)
  /\ (User.super u = true -> User.pendingConfirm u = false ->
      permissionOnlyHimself expected = false
      /\ permissionSuper expected = true).
Proof.
  intros Hu Hgate expected. subst expected.
  split; [exact (newsletter_getPermissions_run req block w u Hu Hgate)|].
  split; [exact (user_getPermissions_run req block w u Hu Hgate)|].
  cbn [permissionOnlyHimself permissionSuper].
  repeat split; intros;
    repeat match goal with H : _ = _ :> bool |- _ => rewrite H end;
    try reflexivity; now destruct (User.pendingConfirm u).
Qed.

(** Replaces a permission result by the caller's record it came from. *)
Ltac from_user_perms H :=
  apply user_getPermissions_inv in H;
  destruct H as (u & Hu & Hgate & -> & ->);
  cbn [loggedUser permissionsOf andb] in *.

Ltac from_newsletter_perms H :=
  apply newsletter_getPermissions_inv in H;
  destruct H as (u & Hu & Hgate & -> & ->);
  cbn [loggedUser permissionsOf andb] in *.

(** C2. A caller whose permission result has [permissionSuper = false]
    gets [Forbidden] from promote, whatever id is requested, its own
    included: the super test comes first.  A caller whose permission
    result has [permissionSuper = true] and who asks for its own id gets
    [BadRequest].  In both cases nothing was called but the identity load:
    no promotion took place. *)
Theorem promote_guards req (w w1 : World S) perms :
  UserController.getPermissions req true w = (Returned perms, w1) ->
  (permissionSuper perms = false ->
   UserController.promote req w
   = (Threw (APIError "Forbidden" HttpStatus.FORBIDDEN
               "user.not-have-privileges-to-promote-users"),
      after w (validateEvents req ++ [identityLoad req])))
  /\ (permissionSuper perms = true ->
      parseInt (params_id req) = Num (User.id (loggedUser perms)) ->
      UserController.promote req w
      = (Threw (APIError "Bad Request" HttpStatus.BAD_REQUEST
                  "user.not-have-privileges-to-promote-yourself"),
         after w (validateEvents req ++ [identityLoad req]))).
Proof.
  intros Hperms. from_user_perms Hperms.
  split.
  - intros Hsuper. cbn in Hsuper.
    enter w; feed; same_world.
  - intros Hsuper Hid. cbn in Hsuper.
    enter w; feed; cbn; unfold strictEq; rewrite Z.eqb_refl; cbn;
      same_world.
Qed.
(** C3. Read by id of a target that does not exist.  In the newsletter
    controller every caller with a permission result, self-only or not,
    gets [NotFound] right after the load of the target.  In the user
    controller a caller that is not self-only gets [NotFound] the same
    way.  The self-only caller of the user controller is the exception:
    the requested id is compared with its own before anything is loaded,
    so another id gets [Forbidden] from lookup and from removal whether or
    not that user exists, and its own id is answered from the caller's
    record with no load of the target. *)
Theorem findById_not_found_first req (w w1 : World S) perms :
  (NewsletterController.getPermissions req true w = (Returned perms, w1) ->
   newsletter_findById (parseInt (params_id req)) (store w) = None ->
   NewsletterController.findById req w
   = (Threw (APIError "Not found" HttpStatus.NOT_FOUND "Newsletter not found"),
      after w (validateEvents req
               ++ [identityLoad req;
                   NewsletterFindById (parseInt (params_id req))])))
  /\ (UserController.getPermissions req false w = (Returned perms, w1) ->
      permissionOnlyHimself perms = false ->
      user_findById (parseInt (params_id req)) (store w) = None ->
      UserController.findById req w
      = (Threw (APIError "Not found" HttpStatus.NOT_FOUND "user.not-found"),
         after w (validateEvents req
                  ++ [identityLoad req;
                      UserFindById (parseInt (params_id req))])))
  /\ (UserController.getPermissions req false w = (Returned perms, w1) ->
      permissionOnlyHimself perms = true ->
      (parseInt (params_id req) <> Num (User.id (loggedUser perms)) ->
       UserController.findById req w
       = (Threw (APIError "Forbidden" HttpStatus.FORBIDDEN
                   "user.not-have-privileges-to-another-user-data"),
          after w (validateEvents req ++ [identityLoad req]))
       /\ UserController.remove req w
          = (Threw (APIError "Forbidden" HttpStatus.FORBIDDEN
                      "user.not-have-privileges-to-delete-users"),
             after w (validateEvents req ++ [identityLoad req])))
      /\ (parseInt (params_id req) = Num (User.id (loggedUser perms)) ->
          User.pendingPassword (loggedUser perms) = false ->
          UserController.findById req w
          = (Returned tt,
             after w (validateEvents req
                      ++ [identityLoad req; ResJson (JUser (loggedUser perms));
                          Next true])))).
Proof.
  split; [|split].
  - intros Hperms Habsent. from_newsletter_perms Hperms.
    enter w; feed; same_world.
  - intros Hperms Hnot Habsent. from_user_perms Hperms. cbn in Hnot.
    enter w; feed; same_world.
  - intros Hperms Hself. from_user_perms Hperms. cbn in Hself.
    split.
    + intros Hother.
      assert (Hne : strictNe (Num (User.id u)) (parseInt (params_id req)) = true).
      { unfold strictNe, strictEq. destruct (parseInt (params_id req)) as [z|];
          [|reflexivity].
        destruct (Z.eqb_spec (User.id u) z); [|reflexivity].
        subst z. now elim Hother. }
      split; enter w; feed; same_world.
    + intros Hown Hpending.
      assert (Heq : strictNe (Num (User.id u)) (parseInt (params_id req)) = false).
      { rewrite Hown. unfold strictNe, strictEq. now rewrite Z.eqb_refl. }
      enter w; feed; same_world.
Qed.


(** C5. A self-only caller edits a newsletter that exists.  If the
    newsletter belongs to someone else the edit is [Forbidden], whatever
    the payload says.  If it belongs to the caller and the payload does not
    carry that same owner id, the edit is [Forbidden] as well.  Either way
    nothing was written. *)
Theorem edit_ownership_checks req (w w1 : World S) perms n :
  NewsletterController.getPermissions req true w = (Returned perms, w1) ->
  permissionOnlyHimself perms = true ->
  newsletter_findById (parseInt (params_id req)) (store w) = Some n ->
  (Newsletter.userId n <> User.id (loggedUser perms) ->
   NewsletterController.edit req w
   = (Threw (APIError "Forbidden" HttpStatus.FORBIDDEN
               "You don't have privileges to edit newsletters of another users"),
      after w (validateEvents req
               ++ [identityLoad req;
                   NewsletterFindById (parseInt (params_id req))])))
  /\ (Newsletter.userId n = User.id (loggedUser perms) ->
      b_userId (body req) <> Some (Newsletter.userId n) ->
      NewsletterController.edit req w
      = (Threw (APIError "Forbidden" HttpStatus.FORBIDDEN
                  "You don't have privileges to transfer newsletters to another users"),
         after w (validateEvents req
                  ++ [identityLoad req;
                      NewsletterFindById (parseInt (params_id req))]))).
Proof.
  intros Hperms Hself Hn. from_newsletter_perms Hperms. cbn in Hself.
  split.
  - intros Hother.
    assert (Hne : (User.id u =? Newsletter.userId n) = false)
      by (apply Z.eqb_neq; congruence).
    enter w; feed; same_world.
  - intros Hown Hmove.
    assert (Heq : (User.id u =? Newsletter.userId n) = true)
      by (apply Z.eqb_eq; congruence).
    assert (Hdto : strictNeOpt (Newsletter.userId n) (b_userId (body req)) = true).
    { unfold strictNeOpt. destruct (b_userId (body req)) as [z|]; [|reflexivity].
      destruct (Z.eqb_spec (Newsletter.userId n) z); [|reflexivity].
      subst z. now elim Hmove. }
    enter w; feed; same_world.
Qed.
(** C6. Listing newsletters, for every caller with a permission result:
    the service is asked once, with a filter whose owner is the caller's id
    when the caller is self-only, and whose name is the requested name
    whenever one is requested, restricted or not; the rows it gives are
    what is paged and sent.  Listing users as a self-only caller asks the
    service for no list at all: the answer is the single-item page of the
    caller's own record. *)
Theorem listAll_restricted req (w w1 : World S) perms :
  (NewsletterController.getPermissions req true w = (Returned perms, w1) ->
   exists filter,
     NewsletterController.listAll req w
     = (Returned tt,
        after w (validateEvents req
                 ++ [identityLoad req; NewsletterFindAll filter;
                     ResJson (JNewsletterPage
                                (newsletter_findAll filter (store w))
                                (page filter) (size filter))]))
     /\ (permissionOnlyHimself perms = true ->
         f_userId filter = Some (User.id (loggedUser perms)))
     /\ (forall n, q_name (query req) = Some n -> n <> "" ->
         f_name filter = Some n))
  /\ (UserController.getPermissions req true w = (Returned perms, w1) ->
      permissionOnlyHimself perms = true ->
      UserController.listAll req w
      = (Returned tt,
         after w (validateEvents req
                  ++ [identityLoad req;
                      ResJson (JUserSinglePage (loggedUser perms)
                                 (page (getFilter (query req)))
                                 (size (getFilter (query req))));
                      Next false]))).
Proof.
  split.
  - intros Hperms. from_newsletter_perms Hperms.
    eexists. split; [|split].
    + enter w; feed; same_world.
    + intros Hself. cbn in Hself. rewrite Hself. cbn.
      now destruct (truthy (q_name (query req))).
    + intros n Hn Hne. rewrite Hn.
      destruct n as [|c n]; [now elim Hne|]. reflexivity.
  - intros Hperms Hself. from_user_perms Hperms. cbn in Hself.
    enter w; feed; destruct (truthy (q_name (query req))); same_world.
Qed.

(** C7, where the code departs from the claim.  A self-only caller
    removes its own record: the record is removed and 204 is sent, and
    then, the block having no [return], the action goes on, looks the same
    id up again and, the record being gone, fails with [NotFound].  The
    action has failed and the store has changed. *)
Theorem user_remove_fails_after_write req (w w1 : World S) perms s' :
  UserController.getPermissions req false w = (Returned perms, w1) ->
  permissionOnlyHimself perms = true ->
  parseInt (params_id req) = Num (User.id (loggedUser perms)) ->
  User.pendingPassword (loggedUser perms) = false ->
  user_remove (loggedUser perms) (store w) = (Returned tt, s') ->
  user_findById (Num (User.id (loggedUser perms))) s' = None ->
  UserController.remove req w
  = (Threw (APIError "Not found" HttpStatus.NOT_FOUND "user.not-found"),
     mkWorld s'
       (events w ++ validateEvents req
        ++ [identityLoad req; UserRemove (loggedUser perms);
            ResStatus HttpStatus.NO_CONTENT; ResJson JEmpty; Next true;
            UserFindById (Num (User.id (loggedUser perms)))])).
Proof.
  intros Hperms Hself Hown Hpending Hremove Hgone.
  from_user_perms Hperms. cbn in Hself.
  assert (Heq : strictEq (Num (User.id u)) (Num (User.id u)) = true)
    by (unfold strictEq; apply Z.eqb_refl).
  assert (Hne : strictNe (Num (User.id u)) (Num (User.id u)) = false)
    by (unfold strictNe; now rewrite Heq).
  enter w; rewrite Hown; feed; same_world.
Qed.

(** C8, where the code departs from the claim.  A request whose
    validation left errors is answered with 422 and the list of errors,
    and the creation of a newsletter then goes on all the same: the caller
    is loaded, the newsletter is saved, 201 is sent and the activity is
    logged. *)
Theorem create_runs_after_validation_failure req (w w1 : World S) perms n s' :
  validationErrors req <> [] ->
  NewsletterController.getPermissions req true w = (Returned perms, w1) ->
  permissionOnlyHimself perms = false ->
  newsletter_save (body req) (store w) = (Returned n, s') ->
  NewsletterController.create req w
  = (Returned tt,
     mkWorld s'
       (events w
        ++ [ResStatus HttpStatus.UNPROCESSABLE_ENTITY;
            ResJson (JErrors (validationErrors req));
            identityLoad req; NewsletterSave (body req);
            ResStatus HttpStatus.CREATED; ResJson (JNewsletter n);
            LogInfo n "was created"
              (Some (User.id (loggedUser perms), User.name (loggedUser perms)))])).
Proof.
  intros Herrors Hperms Hnot Hsave.
  from_newsletter_perms Hperms. cbn in Hnot.
  destruct w as [s0 es0]; unfold_actions; unfold_js; cbn [store events] in *.
  destruct (validationErrors req) as [|e errs]; [now elim Herrors|].
  feed; same_world.
Qed.

(** C9. [listAllFromLoggedUser] throws a [ReferenceError] on every
    request: the identifier [listAll] is bound nowhere in its scope.
    Nothing was called before that, so no response was produced. *)
Theorem listAllFromLoggedUser_throws req (w : World S) :
  resolve newsletterModuleScope "listAll" = None
  /\ NewsletterController.listAllFromLoggedUser req w
     = (Threw (ReferenceError "listAll"), w).
Proof. split; reflexivity. Qed.
End Properties.

(** ** Failures, writes and the order of calls

    The actions are built from a handful of combinators; how each of them
    treats the store and the list of calls decides how the actions do. *)

Section Discipline.
Context {S : Type}.

Lemma quiet_ret {A} (a : A) : quiet (ret (S:=S) a).
Proof. intros w. reflexivity. Qed.

Lemma quiet_throw {A} (e : Exn) : quiet (throw (S:=S) (A:=A) e).
Proof. intros w. reflexivity. Qed.

Lemma quiet_emit (e : Event) : quiet (emit (S:=S) e).
Proof. intros w. reflexivity. Qed.

Lemma quiet_callRead {A} (e : Event) (op : S -> A) : quiet (callRead e op).
Proof. intros w. reflexivity. Qed.

Lemma quiet_throwIf (c : bool) (e : Exn) : quiet (throwIf (S:=S) c e).
Proof. intros w. now destruct c. Qed.

Lemma quiet_bind {A B} (m : M S A) (k : A -> M S B) :
  quiet m -> (forall a, quiet (k a)) -> quiet (bind m k).
Proof.
  intros Hm Hk w. unfold bind. specialize (Hm w).
  destruct (m w) as [[a|e] w1]; cbn in *; [|exact Hm].
  now rewrite (Hk a w1).
Qed.

Lemma total_ret {A} (a : A) : total (ret (S:=S) a).
Proof. intros w. now exists a. Qed.

Lemma total_emit (e : Event) : total (emit (S:=S) e).
Proof. intros w. now exists tt. Qed.

Lemma total_detached {A} (m : M S A) : total (detached m).
Proof. intros w. now exists tt. Qed.

Lemma total_bind {A B} (m : M S A) (k : A -> M S B) :
  total m -> (forall a, total (k a)) -> total (bind m k).
Proof.
  intros Hm Hk w. unfold bind. destruct (Hm w) as [a Ha].
  destruct (m w) as [[a'|e] w1]; cbn in *; [|discriminate].
  apply Hk.
Qed.

Lemma failsClean_quiet {A} (m : M S A) : quiet m -> failsClean m.
Proof. intros Hm w e _. apply Hm. Qed.

Lemma failsClean_total {A} (m : M S A) : total m -> failsClean m.
Proof. intros Hm w e He. destruct (Hm w) as [a Ha]. congruence. Qed.

(** Checks first: after a step that leaves the store alone, what matters is
    the rest. *)
Lemma failsClean_bind {A B} (m : M S A) (k : A -> M S B) :
  quiet m -> (forall a, failsClean (k a)) -> failsClean (bind m k).
Proof.
  intros Hm Hk w e. unfold bind. specialize (Hm w).
  destruct (m w) as [[a|e1] w1]; cbn in *; [|now intros _].
  intros He. now rewrite (Hk a w1 e He).
Qed.

(** Then the write: it may fail, atomically, and nothing fails after it. *)
Lemma failsClean_write {A B} (ev : Event) (op : S -> Outcome A * S)
      (k : A -> M S B) :
  atomic op -> (forall a, total (k a)) -> failsClean (bind (callWrite ev op) k).
Proof.
  intros Hop Hk w e. unfold bind, callWrite.
  specialize (Hop (store w)).
  destruct (op (store w)) as [[a|e1] s1]; cbn in *.
  - intros He. destruct (Hk a (mkWorld s1 (events w ++ [ev]))) as [b Hb].
    congruence.
  - intros _. exact (Hop e1 eq_refl).
Qed.

Lemma extends_ret {A} (a : A) : extends (ret (S:=S) a).
Proof. intros w. exists []. cbn. now rewrite app_nil_r. Qed.

Lemma extends_throw {A} (e : Exn) : extends (throw (S:=S) (A:=A) e).
Proof. intros w. exists []. cbn. now rewrite app_nil_r. Qed.

Lemma extends_emit (e : Event) : extends (emit (S:=S) e).
Proof. intros w. now exists [e]. Qed.

Lemma extends_callRead {A} (e : Event) (op : S -> A) : extends (callRead e op).
Proof. intros w. now exists [e]. Qed.

Lemma extends_callWrite {A} (e : Event) (op : S -> Outcome A * S) :
  extends (callWrite e op).
Proof. intros w. exists [e]. unfold callWrite. now destruct (op (store w)). Qed.

Lemma extends_throwIf (c : bool) (e : Exn) : extends (throwIf (S:=S) c e).
Proof. destruct c; [apply extends_throw | apply extends_ret]. Qed.

Lemma extends_detached {A} (m : M S A) : extends m -> extends (detached m).
Proof. intros Hm w. exact (Hm w). Qed.

Lemma extends_bind {A B} (m : M S A) (k : A -> M S B) :
  extends m -> (forall a, extends (k a)) -> extends (bind m k).
Proof.
  intros Hm Hk w. unfold bind. destruct (Hm w) as [es1 H1].
  destruct (m w) as [[a|e] w1]; cbn in *; [|now exists es1].
  destruct (Hk a w1) as [es2 H2]. exists (es1 ++ es2).
  now rewrite H2, H1, app_assoc.
Qed.
End Discipline.

Create HintDb discipline.

#[local] Hint Resolve quiet_ret quiet_throw quiet_emit quiet_callRead
  quiet_throwIf total_ret total_emit total_detached extends_ret extends_throw
  extends_emit extends_callRead extends_callWrite extends_throwIf
  user_save_atomic user_edit_atomic user_editById_atomic user_remove_atomic
  user_promote_atomic newsletter_save_atomic newsletter_edit_atomic
  newsletter_activate_atomic newsletter_deactivate_atomic
  newsletter_remove_atomic : discipline.

(** Each tactic follows the shape of the computation: a [bind] is split
    into its two parts, a test into its cases, a combinator is settled by
    its lemma. *)
Ltac quiet_steps :=
  repeat match goal with
         | |- quiet (bind _ _) => apply quiet_bind; [|intros]
         | |- quiet (match ?x with _ => _ end) => destruct x
         | |- quiet _ => solve [auto with discipline]
         end.

Ltac total_steps :=
  repeat match goal with
         | |- total (bind _ _) => apply total_bind; [|intros]
         | |- total (match ?x with _ => _ end) => destruct x
         | |- total _ => solve [auto with discipline]
         end.

Ltac extends_steps :=
  cbv zeta;
  repeat match goal with
         | |- extends (detached _) => apply extends_detached
         | |- extends (bind _ _) => apply extends_bind; [|intros; cbv zeta]
         | |- extends (match ?x with _ => _ end) => destruct x
         | |- extends _ => solve [auto with discipline]
         end.

Ltac failsClean_steps :=
  cbv zeta;
  repeat match goal with
         | |- failsClean (detached _) => apply failsClean_total, total_detached
         | |- failsClean (bind (callWrite _ _) _) =>
             apply failsClean_write;
             [solve [eauto with discipline] | intros; solve [total_steps]]
         | |- failsClean (bind _ _) =>
             apply failsClean_bind; [solve [quiet_steps] | intros; cbv zeta]
         | |- failsClean (match ?x with _ => _ end) => destruct x
         | |- failsClean _ => solve [apply failsClean_quiet; quiet_steps]
         end.

Section Order.
Context {S : Type} {US : UserService S} {NS : NewsletterService S}
        {PG : Pagination}.

(** Whatever comes of it, [getPermissions] starts with the identity
    load. *)
Lemma newsletter_getPermissions_first req block (w : World S) :
  exists es,
    events (snd (NewsletterController.getPermissions req block w))
    = events w ++ identityLoad req :: es.
Proof.
  unfold NewsletterController.getPermissions. unfold_js. cbn.
  destruct (user_findById _ _) as [u|];
    [destruct (block && User.pendingPassword u)|]; now exists [].
Qed.

Lemma user_getPermissions_first req block (w : World S) :
  exists es,
    events (snd (UserController.getPermissions req block w))
    = events w ++ identityLoad req :: es.
Proof.
  unfold UserController.getPermissions. unfold_js. cbn.
  destruct (user_findById _ _) as [u|];
    [destruct (block && User.pendingPassword u)|]; now exists [].
Qed.

(** X15. Each of the thirteen actions that call [validate] starts the
    same way.  When validation left errors, its first calls are
    [res.status(422)] and [res.json] with the list of errors, and the
    identity load comes right after them.  When validation left none,
    its first call is the identity load: [validate] has called
    nothing. *)
Lemma validation_reported_first req (w : World S) :
  Forall (fun action : Request -> M S unit =>
            (validationErrors req = [] ->
             exists es,
               events (snd (action req w))
               = events w ++ UserFindById (Num (userId req)) :: es)
            /\ (validationErrors req <> [] ->
                exists es,
                  events (snd (action req w))
                  = events w
                    ++ ResStatus HttpStatus.UNPROCESSABLE_ENTITY
                       :: ResJson (JErrors (validationErrors req))
                       :: UserFindById (Num (userId req)) :: es))
         (gatedActions ++ selfGatedActions).
Proof.
  assert (Hshape : forall (validate : Request -> M S bool)
                          (getP : M S Permissions)
                          (k : Permissions -> M S unit),
             (exists b, validate req w = (Returned b, after w (validateEvents req))) ->
             (forall w', exists es,
                 events (snd (getP w')) = events w' ++ identityLoad req :: es) ->
             (forall perms, extends (k perms)) ->
             exists es,
               events (snd (bind (validate req) (fun _ => bind getP k) w))
               = events w ++ validateEvents req ++ identityLoad req :: es).
  { intros validate getP k [b Hv] HgetP Hk. unfold bind. rewrite Hv.
    destruct (HgetP (after w (validateEvents req))) as [es1 H1].
    destruct (getP (after w (validateEvents req))) as [[perms|e] w1];
      cbn in H1 |- *.
    - destruct (Hk perms w1) as [es2 H2]. exists (es1 ++ es2).
      rewrite H2, H1. now rewrite <- !app_assoc.
    - exists es1. rewrite H1. now rewrite <- app_assoc. }
  assert (Hcases : forall action : Request -> M S unit,
             (exists es,
                 events (snd (action req w))
                 = events w ++ validateEvents req ++ identityLoad req :: es) ->
             (validationErrors req = [] ->
              exists es,
                events (snd (action req w))
                = events w ++ UserFindById (Num (userId req)) :: es)
             /\ (validationErrors req <> [] ->
                 exists es,
                   events (snd (action req w))
                   = events w
                     ++ ResStatus HttpStatus.UNPROCESSABLE_ENTITY
                        :: ResJson (JErrors (validationErrors req))
                        :: UserFindById (Num (userId req)) :: es)).
  { intros action [es Hes]. unfold validateEvents, identityLoad in Hes.
    split; intros Herrors; exists es; rewrite Hes.
    - now rewrite Herrors.
    - destruct (validationErrors req); [now elim Herrors | reflexivity]. }
  unfold gatedActions, selfGatedActions. cbn [app].
  repeat (constructor;
          [apply Hcases; apply Hshape;
           [first [apply newsletter_validate_run | apply user_validate_run]
           |first [apply newsletter_getPermissions_first
                  | apply user_getPermissions_first]
           |intros perms; unfold NewsletterController.logActivity;
            extends_steps]|]).
  constructor.
Qed.

(** X16. Checks before writes.  When validation left no error and a
    service write that fails leaves the store as it was, every action but
    [UserController.remove] that fails leaves the store as it was: its
    tests come before its one write, and after the write it only sends its
    one response, logs or calls [next]. *)
Lemma failure_precedes_write `{!AtomicWrites S} req :
  validationErrors req = [] ->
  Forall (fun action : Request -> M S unit => failsClean (action req))
         actionsButUserRemove.
Proof.
  intros Hvalid. unfold actionsButUserRemove, gatedActions. cbn [app].
  repeat (constructor;
          [unfold_actions; unfold NewsletterController.listAllFromLoggedUser;
           rewrite ?Hvalid; failsClean_steps|]).
  constructor.
Qed.
End Order.

(** ** Feed *)

Lemma toLowerCase_length (s : string) :
  String.length (Feed.toLowerCase s) = String.length s.
Proof. induction s as [|c s IH]; cbn; [reflexivity | now rewrite IH]. Qed.

Lemma toLowerAscii_idempotent (c : ascii) :
  Feed.toLowerAscii (Feed.toLowerAscii c) = Feed.toLowerAscii c.
Proof.
  destruct c as [[] [] [] [] [] [] [] []]; reflexivity.
Qed.

Lemma toLowerCase_idempotent (s : string) :
  Feed.toLowerCase (Feed.toLowerCase s) = Feed.toLowerCase s.
Proof.
  induction s as [|c s IH]; cbn; [reflexivity|].
  now rewrite toLowerAscii_idempotent, IH.
Qed.

(** A character whose lower case is the letter [lo] is [lo] or its capital
    [up]; checked on the 256 characters. *)
Ltac both_cases :=
  let c := fresh "c" in
  let H := fresh "H" in
  intros c; destruct c as [[] [] [] [] [] [] [] []]; vm_compute;
  (split;
   [intros H; first [discriminate H | left; reflexivity | right; reflexivity]
   |intros [H|H]; first [discriminate H | reflexivity]]).

Lemma lower_is_p c : Feed.toLowerAscii c = "p"%char <-> c = "p"%char \/ c = "P"%char.
Proof. revert c. both_cases. Qed.

Lemma lower_is_t c : Feed.toLowerAscii c = "t"%char <-> c = "t"%char \/ c = "T"%char.
Proof. revert c. both_cases. Qed.

Lemma lower_is_b c : Feed.toLowerAscii c = "b"%char <-> c = "b"%char \/ c = "B"%char.
Proof. revert c. both_cases. Qed.

Lemma lower_is_r c : Feed.toLowerAscii c = "r"%char <-> c = "r"%char \/ c = "R"%char.
Proof. revert c. both_cases. Qed.

Lemma lower_is_e c : Feed.toLowerAscii c = "e"%char <-> c = "e"%char \/ c = "E"%char.
Proof. revert c. both_cases. Qed.

Lemma lower_is_n c : Feed.toLowerAscii c = "n"%char <-> c = "n"%char \/ c = "N"%char.
Proof. revert c. both_cases. Qed.

Lemma lower_is_u c : Feed.toLowerAscii c = "u"%char <-> c = "u"%char \/ c = "U"%char.
Proof. revert c. both_cases. Qed.

Lemma lower_is_s c : Feed.toLowerAscii c = "s"%char <-> c = "s"%char \/ c = "S"%char.
Proof. revert c. both_cases. Qed.

Lemma lower_is_dash c :
  Feed.toLowerAscii c = "-"%char <-> c = "-"%char \/ c = "-"%char.
Proof. revert c. both_cases. Qed.

(** A string whose lower case has five characters has five characters,
    each with the matching lower case. *)
Lemma toLowerCase_five (l : string) (a0 b0 x0 c0 d0 : ascii) :
  Feed.toLowerCase l
  = String a0 (String b0 (String x0 (String c0 (String d0 "")))) <->
  exists a b x c d,
    l = String a (String b (String x (String c (String d ""))))
    /\ Feed.toLowerAscii a = a0 /\ Feed.toLowerAscii b = b0
    /\ Feed.toLowerAscii x = x0 /\ Feed.toLowerAscii c = c0
    /\ Feed.toLowerAscii d = d0.
Proof.
  split.
  - destruct l as [|a [|b [|x [|c [|d [|y rest]]]]]]; cbn; try discriminate.
    intros H. injection H as Ha Hb Hx Hc Hd.
    exists a, b, x, c, d. repeat split; assumption.
  - intros (a & b & x & c & d & -> & <- & <- & <- & <- & <-). reflexivity.
Qed.

(** The locales whose lower case is [pt-br], and those whose lower case
    is [en-us], letter by letter. *)
Lemma lowercase_is_pt_br (l : string) :
  Feed.toLowerCase l = "pt-br" <->
  exists a b c d,
    l = String a (String b (String "-" (String c (String d ""))))
    /\ In a ["p"; "P"]%char /\ In b ["t"; "T"]%char
    /\ In c ["b"; "B"]%char /\ In d ["r"; "R"]%char.
Proof.
  split.
  - intros H. apply toLowerCase_five in H.
    destruct H as (a & b & x & c & d & -> & Ha & Hb & Hx & Hc & Hd).
    apply lower_is_dash in Hx. assert (x = "-"%char) as -> by (now destruct Hx).
    apply lower_is_p in Ha. apply lower_is_t in Hb.
    apply lower_is_b in Hc. apply lower_is_r in Hd.
    exists a, b, c, d. cbn. intuition congruence.
  - intros (a & b & c & d & -> & Ha & Hb & Hc & Hd).
    apply toLowerCase_five. exists a, b, "-"%char, c, d.
    cbn in Ha, Hb, Hc, Hd.
    rewrite lower_is_p, lower_is_t, lower_is_b, lower_is_r.
    repeat split; try reflexivity; intuition congruence.
Qed.

Lemma lowercase_is_en_us (l : string) :
  Feed.toLowerCase l = "en-us" <->
  exists a b c d,
    l = String a (String b (String "-" (String c (String d ""))))
    /\ In a ["e"; "E"]%char /\ In b ["n"; "N"]%char
    /\ In c ["u"; "U"]%char /\ In d ["s"; "S"]%char.
Proof.
  split.
  - intros H. apply toLowerCase_five in H.
    destruct H as (a & b & x & c & d & -> & Ha & Hb & Hx & Hc & Hd).
    apply lower_is_dash in Hx. assert (x = "-"%char) as -> by (now destruct Hx).
    apply lower_is_e in Ha. apply lower_is_n in Hb.
    apply lower_is_u in Hc. apply lower_is_s in Hd.
    exists a, b, c, d. cbn. intuition congruence.
  - intros (a & b & c & d & -> & Ha & Hb & Hc & Hd).
    apply toLowerCase_five. exists a, b, "-"%char, c, d.
    cbn in Ha, Hb, Hc, Hd.
    rewrite lower_is_e, lower_is_n, lower_is_u, lower_is_s.
    repeat split; try reflexivity; intuition congruence.
Qed.

(** C10. For a feed whose locale is a string, [getEncoding] returns
    ['Windows-1252'] exactly when the locale in lower case is ['pt-br'] or
    ['en-us'], and ['UTF-8'] for every other locale.  The lower case is
    that of the letters: the locales whose lower case is ['pt-br'] are the
    five-character strings spelling it in capitals or small letters, and
    likewise for ['en-us']. *)
Theorem getEncoding_by_locale (feed : Feed.t) (l : string) :
  Feed.locale feed = Some l ->
  (Feed.getEncoding feed = Returned "Windows-1252"
   <-> Feed.toLowerCase l = "pt-br" \/ Feed.toLowerCase l = "en-us")
  /\ (Feed.getEncoding feed = Returned "UTF-8"
      <-> Feed.toLowerCase l <> "pt-br" /\ Feed.toLowerCase l <> "en-us")
  /\ (Feed.toLowerCase l = "pt-br" <->
      exists a b c d,
        l = String a (String b (String "-" (String c (String d ""))))
        /\ In a ["p"; "P"]%char /\ In b ["t"; "T"]%char
        /\ In c ["b"; "B"]%char /\ In d ["r"; "R"]%char)
  /\ (Feed.toLowerCase l = "en-us" <->
      exists a b c d,
        l = String a (String b (String "-" (String c (String d ""))))
        /\ In a ["e"; "E"]%char /\ In b ["n"; "N"]%char
        /\ In c ["u"; "U"]%char /\ In d ["s"; "S"]%char).
Proof.
  intros Hl.
  split; [|split; [|split; [apply lowercase_is_pt_br | apply lowercase_is_en_us]]];
    unfold Feed.getEncoding; rewrite Hl;
    (destruct (String.eqb_spec (Feed.toLowerCase l) "pt-br") as [Hpt|Hpt];
     [|destruct (String.eqb_spec (Feed.toLowerCase l) "en-us") as [Hen|Hen]]).
  all: repeat split; intros; try discriminate; intuition congruence.
Qed.

(** ** The theorems at work on the in-memory store *)

Lemma getEncoding_by_locale_witness :
  Feed.getEncoding (feedOf "PT-br") = Returned "Windows-1252"
  /\ Feed.getEncoding (feedOf "pt-PT") = Returned "UTF-8".
Proof.
  split.
  - destruct (getEncoding_by_locale (feedOf "PT-br") "PT-br" eq_refl)
      as (Hwindows & _ & Hpt & _).
    apply Hwindows. left. apply Hpt.
    exists "P"%char, "T"%char, "b"%char, "r"%char. cbn. tauto.
  - destruct (getEncoding_by_locale (feedOf "pt-PT") "pt-PT" eq_refl)
      as (_ & Hutf & Hpt & Hen).
    apply Hutf. split.
    + intros H. apply Hpt in H.
      destruct H as (a & b & c & d & Hl & _ & _ & Hc & _).
      injection Hl as <- <- <- <-. cbn in Hc. intuition discriminate.
    + intros H. apply Hen in H.
      destruct H as (a & b & c & d & Hl & Ha & _).
      injection Hl as <- <- <- <-. cbn in Ha. intuition discriminate.
Defined.

Example getEncoding_examples :
  Feed.getEncoding (feedOf "en-US") = Returned "Windows-1252"
  /\ Feed.getEncoding (feedOf "pt-PT") = Returned "UTF-8"
  /\ Feed.getEncoding (feedOf "") = Returned "UTF-8"
  /\ Feed.getEncoding (feedOf " pt-br") = Returned "UTF-8".
Proof. repeat split. Qed.

(** Settles a closed equation by evaluating both sides. *)
Ltac evaluate := vm_compute; reflexivity.

Lemma getPermissions_flags_witness :
  NewsletterController.getPermissions (request 2 "1") true sampleWorld
  = (Returned {| loggedUser := bob; permissionOnlyHimself := false;
                 permissionSuper := true |},
     after sampleWorld [UserFindById (Num 2)])
  /\ UserController.getPermissions (request 3 "1") false sampleWorld
     = (Returned {| loggedUser := carol; permissionOnlyHimself := true;
                    permissionSuper := false |},
        after sampleWorld [UserFindById (Num 3)]).
Proof.
  split.
  - refine (proj1 (getPermissions_flags (request 2 "1") true sampleWorld bob
                     _ _)); evaluate.
  - refine (proj1 (proj2 (getPermissions_flags (request 3 "1") false
                            sampleWorld carol _ _))); evaluate.
Defined.

Lemma promote_guards_witness :
  UserController.promote (request 1 "1") sampleWorld
  = (Threw (APIError "Forbidden" 403
              "user.not-have-privileges-to-promote-users"),
     after sampleWorld [UserFindById (Num 1)])
  /\ UserController.promote (request 2 "2") sampleWorld
     = (Threw (APIError "Bad Request" 400
                 "user.not-have-privileges-to-promote-yourself"),
        after sampleWorld [UserFindById (Num 2)]).
Proof.
  split.
  - refine (proj1 (promote_guards (request 1 "1") sampleWorld
                     (after sampleWorld [UserFindById (Num 1)])
                     (permissionsOf alice) _) _); evaluate.
  - refine (proj2 (promote_guards (request 2 "2") sampleWorld
                     (after sampleWorld [UserFindById (Num 2)])
                     (permissionsOf bob) _) _ _); evaluate.
Defined.

Lemma findById_not_found_first_witness :
  NewsletterController.findById (request 1 "99") sampleWorld
  = (Threw (APIError "Not found" 404 "Newsletter not found"),
     after sampleWorld [UserFindById (Num 1); NewsletterFindById (Num 99)])
  /\ UserController.findById (request 2 "99") sampleWorld
     = (Threw (APIError "Not found" 404 "user.not-found"),
        after sampleWorld [UserFindById (Num 2); UserFindById (Num 99)])
  /\ UserController.findById (request 1 "99") sampleWorld
     = (Threw (APIError "Forbidden" 403
                 "user.not-have-privileges-to-another-user-data"),
        after sampleWorld [UserFindById (Num 1)])
  /\ UserController.remove (request 1 "99") sampleWorld
     = (Threw (APIError "Forbidden" 403
                 "user.not-have-privileges-to-delete-users"),
        after sampleWorld [UserFindById (Num 1)])
  /\ UserController.findById (request 1 "1") sampleWorld
     = (Returned tt,
        after sampleWorld [UserFindById (Num 1); ResJson (JUser alice); Next true]).
Proof.
  pose proof (findById_not_found_first (request 1 "99") sampleWorld
                (after sampleWorld [UserFindById (Num 1)]) (permissionsOf alice))
    as (Hnewsletter & _ & Hself).
  pose proof (findById_not_found_first (request 2 "99") sampleWorld
                (after sampleWorld [UserFindById (Num 2)]) (permissionsOf bob))
    as (_ & Huser & _).
  pose proof (findById_not_found_first (request 1 "1") sampleWorld
                (after sampleWorld [UserFindById (Num 1)]) (permissionsOf alice))
    as (_ & _ & Hown).
  split; [apply Hnewsletter; evaluate|].
  split; [apply Huser; evaluate|].
  assert (Hother := proj1 (Hself eq_refl eq_refl)).
  assert (Hmine := proj2 (Hown eq_refl eq_refl)).
  split; [apply Hother; vm_compute; discriminate|].
  split; [apply Hother; vm_compute; discriminate|].
  apply Hmine; evaluate.
Defined.


Lemma edit_ownership_checks_witness :
  NewsletterController.edit (withPayload (request 1 "12") "Mine now" 1) sampleWorld
  = (Threw (APIError "Forbidden" 403
              "You don't have privileges to edit newsletters of another users"),
     after sampleWorld [UserFindById (Num 1); NewsletterFindById (Num 12)])
  /\ NewsletterController.edit (withPayload (request 1 "10") "Weekly digest" 2)
       sampleWorld
     = (Threw (APIError "Forbidden" 403
                 "You don't have privileges to transfer newsletters to another users"),
        after sampleWorld [UserFindById (Num 1); NewsletterFindById (Num 10)]).
Proof.
  split.
  - refine (proj1 (edit_ownership_checks
                     (withPayload (request 1 "12") "Mine now" 1) sampleWorld
                     (after sampleWorld [UserFindById (Num 1)])
                     (permissionsOf alice) bobsWeekly _ _ _) _);
      try evaluate.
    vm_compute; discriminate.
  - refine (proj2 (edit_ownership_checks
                     (withPayload (request 1 "10") "Weekly digest" 2) sampleWorld
                     (after sampleWorld [UserFindById (Num 1)])
                     (permissionsOf alice) weekly _ _ _) _ _);
      try evaluate.
    vm_compute; discriminate.
Defined.

Lemma listAll_restricted_witness :
  (exists filter,
     NewsletterController.listAll (withName (request 1 "") "Weekly") sampleWorld
     = (Returned tt,
        after sampleWorld
          [UserFindById (Num 1); NewsletterFindAll filter;
           ResJson (JNewsletterPage (newsletter_findAll filter sampleStore)
                      (page filter) (size filter))])
     /\ f_userId filter = Some 1
     /\ f_name filter = Some "Weekly")
  /\ UserController.listAll (withName (request 1 "") "Weekly") sampleWorld
     = (Returned tt,
        after sampleWorld
          [UserFindById (Num 1); ResJson (JUserSinglePage alice None None);
           Next false]).
Proof.
  pose proof (listAll_restricted (withName (request 1 "") "Weekly") sampleWorld
                (after sampleWorld [UserFindById (Num 1)]) (permissionsOf alice))
    as (Hnewsletters & Husers).
  split.
  - destruct (Hnewsletters eq_refl) as (filter & Hrun & Howner & Hname).
    exists filter. split; [exact Hrun|].
    split; [apply Howner; evaluate|].
    apply Hname; [evaluate | discriminate].
  - apply Husers; evaluate.
Defined.

(** The scenario of the spec: caller 1, not super, lists the newsletters
    named "Weekly" and gets those of its own whose name contains it. *)
Example listAll_weekly_scenario :
  NewsletterController.listAll (withName (request 1 "") "Weekly") sampleWorld
  = (Returned tt,
     after sampleWorld
       [UserFindById (Num 1);
        NewsletterFindAll {| page := None; size := None;
                             f_name := Some "Weekly"; f_userId := Some 1 |};
        ResJson (JNewsletterPage [weekly] None None)]).
Proof. evaluate. Qed.

Lemma user_remove_fails_after_write_witness :
  UserController.remove (request 1 "1") sampleWorld
  = (Threw (APIError "Not found" 404 "user.not-found"),
     mkWorld (withUsers sampleStore (delete 1 (users sampleStore)))
       [UserFindById (Num 1); UserRemove alice; ResStatus 204; ResJson JEmpty;
        Next true; UserFindById (Num 1)])
  /\ users sampleStore !! 1 = Some alice
  /\ delete 1 (users sampleStore) !! 1 = None.
Proof.
  split; [|split; evaluate].
  refine (user_remove_fails_after_write (request 1 "1") sampleWorld
            (after sampleWorld [UserFindById (Num 1)]) (permissionsOf alice)
            (withUsers sampleStore (delete 1 (users sampleStore)))
            _ _ _ _ _ _); evaluate.
Defined.

Lemma create_runs_after_validation_failure_witness :
  NewsletterController.create
    (withErrors (withPayload (request 2 "") "" 2) [nameRequired]) sampleWorld
  = (Returned tt,
     mkWorld (withNewsletters sampleStore
                (<[13 := Newsletter.Build 13 "" 2 true]> (newsletters sampleStore)))
       [ResStatus 422; ResJson (JErrors [nameRequired]);
        UserFindById (Num 2);
        NewsletterSave (body (withPayload (request 2 "") "" 2));
        ResStatus 201; ResJson (JNewsletter (Newsletter.Build 13 "" 2 true));
        LogInfo (Newsletter.Build 13 "" 2 true) "was created" (Some (2, "bob"))]).
Proof.
  refine (create_runs_after_validation_failure
            (withErrors (withPayload (request 2 "") "" 2) [nameRequired])
            sampleWorld (after sampleWorld [UserFindById (Num 2)])
            (permissionsOf bob) (Newsletter.Build 13 "" 2 true)
            (withNewsletters sampleStore
               (<[13 := Newsletter.Build 13 "" 2 true]> (newsletters sampleStore)))
            _ _ _ _); try evaluate.
  discriminate.
Defined.

(** The in-memory services fail without touching the store. *)
#[export] Instance memAtomicWrites : AtomicWrites MemStore.
Proof.
  split; intros; intros s e; cbn; try discriminate;
    destruct (lookupNum _ _); cbn; intros; congruence.
Qed.

(** On the in-memory store a failure of [UserController.remove] does not
    leave the store as it was. *)
Example user_remove_not_failsClean :
  ~ failsClean (UserController.remove (S:=MemStore) (request 1 "1")).
Proof.
  intros Hclean.
  assert (Hthrew : fst (UserController.remove (request 1 "1") sampleWorld)
                   = Threw (APIError "Not found" 404 "user.not-found"))
    by evaluate.
  apply Hclean in Hthrew.
  assert (Hgone : users (store (snd (UserController.remove (request 1 "1")
                                       sampleWorld))) !! 1 = None)
    by evaluate.
  rewrite Hthrew in Hgone. vm_compute in Hgone. discriminate.
Qed.

(** ** The rest of the two controllers *)

(** Replaces a permission result by the caller's record it came from. *)
Ltac of_user_perms H :=
  apply user_getPermissions_inv in H;
  destruct H as (u & Hu & Hgate & -> & ->);
  cbn [loggedUser permissionsOf andb] in *.

Ltac of_newsletter_perms H :=
  apply newsletter_getPermissions_inv in H;
  destruct H as (u & Hu & Hgate & -> & ->);
  cbn [loggedUser permissionsOf andb] in *.

Section Further.
Context {S : Type} {US : UserService S} {NS : NewsletterService S}
        {PG : Pagination}.

(** X1. A caller whose id is not in the store gets [Unauthorized] from
    each of the thirteen actions that resolve the caller, and nothing was
    called but the identity load.  The fourteenth action,
    [listAllFromLoggedUser], does not get that far: for such a caller too
    it throws its [ReferenceError] with nothing called. *)
Theorem unknown_caller_unauthorized req (w : World S) :
  user_findById (Num (userId req)) (store w) = None ->
  Forall (fun action : Request -> M S unit =>
            exists message,
              action req w
              = (Threw (APIError "Unauthorized" HttpStatus.UNAUTHORIZED message),
                 after w (validateEvents req ++ [identityLoad req])))
         [ NewsletterController.listAll; NewsletterController.findById;
           NewsletterController.create; NewsletterController.edit;
           NewsletterController.activate; NewsletterController.deactivate;
           NewsletterController.remove;
           UserController.listAll; UserController.findById;
           UserController.remove; UserController.create; UserController.edit;
           UserController.promote ]
  /\ NewsletterController.listAllFromLoggedUser req w
     = (Threw (ReferenceError "listAll"), w).
Proof.
  intros Hnone. split; [|reflexivity].
  repeat (constructor; [eexists; enter w; feed; same_world|]).
  constructor.
Qed.

(** Equality tests on ids, as the actions make them. *)
Lemma strictNeOpt_true (a : Z) (b : option Z) :
  b <> Some a -> strictNeOpt a b = true.
Proof.
  intros Hb. unfold strictNeOpt. destruct b as [z|]; [|reflexivity].
  destruct (Z.eqb_spec a z); [|reflexivity]. subst z. now elim Hb.
Qed.

Lemma strictNeOpt_false (a : Z) : strictNeOpt a (Some a) = false.
Proof. unfold strictNeOpt. now rewrite Z.eqb_refl. Qed.

Lemma strictEq_refl (a : Z) : strictEq (Num a) (Num a) = true.
Proof. apply Z.eqb_refl. Qed.

Lemma strictNe_refl (a : Z) : strictNe (Num a) (Num a) = false.
Proof. unfold strictNe. now rewrite strictEq_refl. Qed.

Lemma strictEq_other (a : Z) (n : JsNumber) :
  n <> Num a -> strictEq (Num a) n = false.
Proof.
  intros Hn. destruct n as [z|]; [|reflexivity]. cbn.
  apply Z.eqb_neq. congruence.
Qed.

Lemma strictNe_other (a : Z) (n : JsNumber) :
  n <> Num a -> strictNe (Num a) n = true.
Proof. intros Hn. unfold strictNe. now rewrite strictEq_other. Qed.

(** X2. Creating a newsletter.  A self-only caller whose payload does not
    name the caller itself as owner (another id, or none) gets
    [Forbidden] and nothing is saved.  Any other caller has the payload
    saved as it came: if the service succeeds, 201 is sent with the
    created newsletter and the creation is logged under the caller's id
    and name; if the service fails, its failure is the action's and
    nothing is sent. *)
Theorem newsletter_create_ownership req (w w1 : World S) perms :
  NewsletterController.getPermissions req true w = (Returned perms, w1) ->
  (permissionOnlyHimself perms = true ->
   b_userId (body req) <> Some (User.id (loggedUser perms)) ->
   NewsletterController.create req w
   = (Threw (APIError "Forbidden" HttpStatus.FORBIDDEN
               "You don't have privileges to create newsletters from another users"),
      after w (validateEvents req ++ [identityLoad req])))
  /\ (permissionOnlyHimself perms = false
      \/ b_userId (body req) = Some (User.id (loggedUser perms)) ->
      (forall n s',
         newsletter_save (body req) (store w) = (Returned n, s') ->
         NewsletterController.create req w
         = (Returned tt,
            mkWorld s'
              (events w ++ validateEvents req
               ++ [identityLoad req; NewsletterSave (body req);
                   ResStatus HttpStatus.CREATED; ResJson (JNewsletter n);
                   LogInfo n "was created"
                     (Some (User.id (loggedUser perms),
                            User.name (loggedUser perms)))])))
      /\ (forall e s',
            newsletter_save (body req) (store w) = (Threw e, s') ->
            NewsletterController.create req w
            = (Threw e,
               mkWorld s'
                 (events w ++ validateEvents req
                  ++ [identityLoad req; NewsletterSave (body req)])))).
Proof.
  intros Hperms. of_newsletter_perms Hperms. split.
  - intros Hself Hother. cbn in Hself.
    pose proof (strictNeOpt_true _ _ Hother) as Hne.
    enter w; feed; same_world.
  - intros Hallowed.
    assert (Htest : (negb (User.super u) || User.super u && User.pendingConfirm u)
                    && strictNeOpt (User.id u) (b_userId (body req)) = false).
    { destruct Hallowed as [Hnot|Hown]; cbn in Hnot || idtac.
      - now rewrite Hnot.
      - rewrite Hown, strictNeOpt_false. apply andb_false_r. }
    split; intros; enter w; feed; same_world.
Qed.

(** X3. Activating, deactivating and removing a newsletter are guarded
    alike: a target that does not exist gives [NotFound], a target of
    another user gives a self-only caller [Forbidden], and in both cases
    the service was asked for nothing but the two loads. *)
Theorem newsletter_mutations_guarded req (w w1 : World S) perms :
  NewsletterController.getPermissions req true w = (Returned perms, w1) ->
  Forall (fun '(action, _, _, _) =>
            (newsletter_findById (parseInt (params_id req)) (store w) = None ->
             action req w
             = (Threw (APIError "Not found" HttpStatus.NOT_FOUND
                         "Newsletter not found"),
                after w (validateEvents req
                         ++ [identityLoad req;
                             NewsletterFindById (parseInt (params_id req))])))
            /\ (forall n,
                  newsletter_findById (parseInt (params_id req)) (store w)
                  = Some n ->
                  permissionOnlyHimself perms = true ->
                  Newsletter.userId n <> User.id (loggedUser perms) ->
                  action req w
                  = (Threw (APIError "Forbidden" HttpStatus.FORBIDDEN
                              "You don't have privileges to edit newsletters of another users"),
                     after w (validateEvents req
                              ++ [identityLoad req;
                                  NewsletterFindById (parseInt (params_id req))]))))
         detachedActions.
Proof.
  intros Hperms. of_newsletter_perms Hperms. unfold detachedActions.
  repeat (constructor;
          [split;
           [intros Habsent; enter w; feed; same_world
           |intros n Hn Hself Hother; cbn in Hself;
            assert (Hne : (User.id u =? Newsletter.userId n) = false)
              by (apply Z.eqb_neq; congruence);
            enter w; feed; same_world]|]).
  constructor.
Qed.

(** X4. When the guards pass (the caller is not self-only, or owns the
    target) and the service succeeds, each of the three actions calls the
    service once on the loaded newsletter, answers (200 with a message and
    the newsletter, or 204 for a removal) and logs the change under the
    caller's id and name. *)
Theorem newsletter_mutations_succeed req (w w1 : World S) perms n :
  NewsletterController.getPermissions req true w = (Returned perms, w1) ->
  newsletter_findById (parseInt (params_id req)) (store w) = Some n ->
  permissionOnlyHimself perms = false
  \/ Newsletter.userId n = User.id (loggedUser perms) ->
  Forall (fun '(action, call, op, (status, answer, phrase)) =>
            forall s',
              op n (store w) = (Returned tt, s') ->
              action req w
              = (Returned tt,
                 mkWorld s'
                   (events w ++ validateEvents req
                    ++ [identityLoad req;
                        NewsletterFindById (parseInt (params_id req));
                        call n; ResStatus status; ResJson (answer n);
                        LogInfo n phrase
                          (Some (User.id (loggedUser perms),
                                 User.name (loggedUser perms)))])))
         detachedActions.
Proof.
  intros Hperms Hn Hallowed. of_newsletter_perms Hperms.
  assert (Htest : (negb (User.super u) || User.super u && User.pendingConfirm u)
                  && negb (User.id u =? Newsletter.userId n) = false).
  { destruct Hallowed as [Hnot|Hown]; cbn in Hnot || idtac.
    - now rewrite Hnot.
    - rewrite Hown, Z.eqb_refl. apply andb_false_r. }
  unfold detachedActions.
  repeat (constructor; [intros s' Hop; enter w; feed; same_world|]).
  constructor.
Qed.

(** X5. The service call of the three actions is not awaited: when it
    fails, the action still returns normally, no response is sent and
    nothing is logged. *)
Theorem newsletter_mutation_failure_unreported req (w w1 : World S) perms n :
  NewsletterController.getPermissions req true w = (Returned perms, w1) ->
  newsletter_findById (parseInt (params_id req)) (store w) = Some n ->
  permissionOnlyHimself perms = false
  \/ Newsletter.userId n = User.id (loggedUser perms) ->
  Forall (fun '(action, call, op, _) =>
            forall e s',
              op n (store w) = (Threw e, s') ->
              action req w
              = (Returned tt,
                 mkWorld s'
                   (events w ++ validateEvents req
                    ++ [identityLoad req;
                        NewsletterFindById (parseInt (params_id req));
                        call n])))
         detachedActions.
Proof.
  intros Hperms Hn Hallowed. of_newsletter_perms Hperms.
  assert (Htest : (negb (User.super u) || User.super u && User.pendingConfirm u)
                  && negb (User.id u =? Newsletter.userId n) = false).
  { destruct Hallowed as [Hnot|Hown]; cbn in Hnot || idtac.
    - now rewrite Hnot.
    - rewrite Hown, Z.eqb_refl. apply andb_false_r. }
  unfold detachedActions.
  repeat (constructor; [intros e s' Hop; enter w; feed; same_world|]).
  constructor.
Qed.

(** X6. Reading a newsletter that exists: a self-only caller gets
    [Forbidden] for the newsletter of another user; the owner and every
    caller that is not self-only get the newsletter as the response. *)
Theorem newsletter_findById_access req (w w1 : World S) perms n :
  NewsletterController.getPermissions req true w = (Returned perms, w1) ->
  newsletter_findById (parseInt (params_id req)) (store w) = Some n ->
  (permissionOnlyHimself perms = true ->
   Newsletter.userId n <> User.id (loggedUser perms) ->
   NewsletterController.findById req w
   = (Threw (APIError "Forbidden" HttpStatus.FORBIDDEN
               "You cannot access newsletter from another user"),
      after w (validateEvents req
               ++ [identityLoad req;
                   NewsletterFindById (parseInt (params_id req))])))
  /\ (permissionOnlyHimself perms = false
      \/ Newsletter.userId n = User.id (loggedUser perms) ->
      NewsletterController.findById req w
      = (Returned tt,
         after w (validateEvents req
                  ++ [identityLoad req;
                      NewsletterFindById (parseInt (params_id req));
                      ResJson (JNewsletter n)]))).
Proof.
  intros Hperms Hn. of_newsletter_perms Hperms. split.
  - intros Hself Hother. cbn in Hself.
    assert (Hne : (Newsletter.userId n =? User.id u) = false)
      by (now apply Z.eqb_neq).
    enter w; feed; same_world.
  - intros Hallowed.
    assert (Htest : (negb (User.super u) || User.super u && User.pendingConfirm u)
                    && negb (Newsletter.userId n =? User.id u) = false).
    { destruct Hallowed as [Hnot|Hown]; cbn in Hnot || idtac.
      - now rewrite Hnot.
      - rewrite Hown, Z.eqb_refl. apply andb_false_r. }
    enter w; feed; same_world.
Qed.

(** X7. Editing a newsletter that exists goes through for a caller that
    is not self-only, whatever owner the payload names, and for a
    self-only caller that owns it and names itself as owner again.  The
    service gets the loaded newsletter and the payload as it came; on
    success 200 is sent with the edited newsletter and the edit is logged,
    on failure the failure is the action's and nothing is sent. *)
Theorem newsletter_edit_allowed req (w w1 : World S) perms n :
  NewsletterController.getPermissions req true w = (Returned perms, w1) ->
  newsletter_findById (parseInt (params_id req)) (store w) = Some n ->
  permissionOnlyHimself perms = false
  \/ (Newsletter.userId n = User.id (loggedUser perms)
      /\ b_userId (body req) = Some (Newsletter.userId n)) ->
  (forall n' s',
     newsletter_edit n (body req) (store w) = (Returned n', s') ->
     NewsletterController.edit req w
     = (Returned tt,
        mkWorld s'
          (events w ++ validateEvents req
           ++ [identityLoad req;
               NewsletterFindById (parseInt (params_id req));
               NewsletterEdit n (body req);
               ResStatus HttpStatus.OK; ResJson (JNewsletter n');
               LogInfo n' "was edited"
                 (Some (User.id (loggedUser perms),
                        User.name (loggedUser perms)))])))
  /\ (forall e s',
        newsletter_edit n (body req) (store w) = (Threw e, s') ->
        NewsletterController.edit req w
        = (Threw e,
           mkWorld s'
             (events w ++ validateEvents req
              ++ [identityLoad req;
                  NewsletterFindById (parseInt (params_id req));
                  NewsletterEdit n (body req)]))).
Proof.
  intros Hperms Hn Hallowed. of_newsletter_perms Hperms.
  assert (Hown : (negb (User.super u) || User.super u && User.pendingConfirm u)
                 && negb (User.id u =? Newsletter.userId n) = false).
  { destruct Hallowed as [Hnot|[Hown _]]; cbn in Hnot || idtac.
    - now rewrite Hnot.
    - rewrite Hown, Z.eqb_refl. apply andb_false_r. }
  assert (Hkeep : (negb (User.super u) || User.super u && User.pendingConfirm u)
                  && strictNeOpt (Newsletter.userId n) (b_userId (body req))
                  = false).
  { destruct Hallowed as [Hnot|[_ Hsame]]; cbn in Hnot || idtac.
    - now rewrite Hnot.
    - rewrite Hsame, strictNeOpt_false. apply andb_false_r. }
  split; intros; enter w; feed; same_world.
Qed.

(** X8. Listing newsletters as a caller that is not self-only.  The list
    is restricted to the caller's own newsletters exactly when
    [req.query.loggedUser] is the boolean [true]; any other value, the
    string ['true'] of a URL included, leaves the owner of the filter as
    [getFilter] gave it.  A missing or empty name leaves the name of the
    filter alone, and page and size are those of [getFilter]. *)
Theorem newsletter_listAll_unrestricted req (w w1 : World S) perms :
  NewsletterController.getPermissions req true w = (Returned perms, w1) ->
  permissionOnlyHimself perms = false ->
  exists filter,
    NewsletterController.listAll req w
    = (Returned tt,
       after w (validateEvents req
                ++ [identityLoad req; NewsletterFindAll filter;
                    ResJson (JNewsletterPage
                               (newsletter_findAll filter (store w))
                               (page filter) (size filter))]))
    /\ (q_loggedUser (query req) = QBoolean true ->
        f_userId filter = Some (User.id (loggedUser perms)))
    /\ (q_loggedUser (query req) <> QBoolean true ->
        f_userId filter = f_userId (getFilter (query req)))
    /\ (q_name (query req) = None \/ q_name (query req) = Some "" ->
        f_name filter = f_name (getFilter (query req)))
    /\ page filter = page (getFilter (query req))
    /\ size filter = size (getFilter (query req)).
Proof.
  intros Hperms Hnot. of_newsletter_perms Hperms. cbn in Hnot.
  eexists. split; [enter w; feed; same_world|].
  repeat split.
  - intros Hflag. rewrite Hflag. cbn.
    now destruct (truthy (q_name (query req))).
  - intros Hflag.
    assert (Hfalse : isTrue (q_loggedUser (query req)) = false).
    { destruct (q_loggedUser (query req)) as [| |[]]; try reflexivity.
      now elim Hflag. }
    rewrite Hfalse. now destruct (truthy (q_name (query req))).
  - intros [Hname|Hname]; rewrite Hname; cbn;
      now destruct (isTrue (q_loggedUser (query req))).
  - destruct (truthy (q_name (query req)));
      now destruct (isTrue (q_loggedUser (query req))).
  - destruct (truthy (q_name (query req)));
      now destruct (isTrue (q_loggedUser (query req))).
Qed.

(** X9. Creating a user.  A self-only caller gets [Forbidden] and nothing
    is saved.  For any other caller the service is given the name, email,
    password and super flag of the payload and nothing else of it; on
    success 201 is sent with the created user, on failure the failure is
    the action's and nothing is sent. *)
Theorem user_create_privileged_only req (w w1 : World S) perms :
  UserController.getPermissions req true w = (Returned perms, w1) ->
  let dto :=
    {| b_name := b_name (body req); b_email := b_email (body req);
       b_password := b_password (body req); b_super := b_super (body req);
       b_pendingConfirm := None; b_userId := None |} in
  (permissionOnlyHimself perms = true ->
   UserController.create req w
   = (Threw (APIError "Forbidden" HttpStatus.FORBIDDEN
               "user.not-have-privileges-to-create-users"),
      after w (validateEvents req ++ [identityLoad req])))
  /\ (permissionOnlyHimself perms = false ->
      (forall created s',
         user_save dto (store w) = (Returned created, s') ->
         UserController.create req w
         = (Returned tt,
            mkWorld s'
              (events w ++ validateEvents req
               ++ [identityLoad req; UserSave dto;
                   ResStatus HttpStatus.CREATED; ResJson (JUser created);
                   Next false])))
      /\ (forall e s',
            user_save dto (store w) = (Threw e, s') ->
            UserController.create req w
            = (Threw e,
               mkWorld s'
                 (events w ++ validateEvents req
                  ++ [identityLoad req; UserSave dto])))).
Proof.
  intros Hperms dto. subst dto. of_user_perms Hperms. split.
  - intros Hself. cbn in Hself. enter w; feed; same_world.
  - intros Hnot. cbn in Hnot. split; intros; enter w; feed; same_world.
Qed.

(** X10. Editing a user.  A self-only caller gets [Forbidden] for any id
    but its own, with nothing written; for its own id the service edits
    the caller's record with the name, email and password of the payload
    only, so neither the super flag nor the pending confirmation can be
    changed that way.  Any other caller has the requested id edited with
    name, email, password and pending confirmation; the super flag of the
    payload is dropped there too. *)
Theorem user_edit_fields req (w w1 : World S) perms :
  UserController.getPermissions req true w = (Returned perms, w1) ->
  let own :=
    {| b_name := b_name (body req); b_email := b_email (body req);
       b_password := b_password (body req); b_super := None;
       b_pendingConfirm := None; b_userId := None |} in
  let any :=
    {| b_name := b_name (body req); b_email := b_email (body req);
       b_password := b_password (body req); b_super := None;
       b_pendingConfirm := b_pendingConfirm (body req); b_userId := None |} in
  (permissionOnlyHimself perms = true ->
   parseInt (params_id req) <> Num (User.id (loggedUser perms)) ->
   UserController.edit req w
   = (Threw (APIError "Forbidden" HttpStatus.FORBIDDEN
               "user.not-have-privileges-to-edit-users"),
      after w (validateEvents req ++ [identityLoad req])))
  /\ (permissionOnlyHimself perms = true ->
      parseInt (params_id req) = Num (User.id (loggedUser perms)) ->
      forall edited s',
        user_edit (loggedUser perms) own (store w) = (Returned edited, s') ->
        UserController.edit req w
        = (Returned tt,
           mkWorld s'
             (events w ++ validateEvents req
              ++ [identityLoad req; UserEdit (loggedUser perms) own;
                  ResStatus HttpStatus.OK; ResJson (JUser edited); Next true])))
  /\ (permissionOnlyHimself perms = false ->
      forall edited s',
        user_editById (parseInt (params_id req)) any (store w)
        = (Returned edited, s') ->
        UserController.edit req w
        = (Returned tt,
           mkWorld s'
             (events w ++ validateEvents req
              ++ [identityLoad req; UserEditById (parseInt (params_id req)) any;
                  ResStatus HttpStatus.OK; ResJson (JUser edited);
                  Next false]))).
Proof.
  intros Hperms own any. subst own any. of_user_perms Hperms.
  split; [|split].
  - intros Hself Hother. cbn in Hself.
    pose proof (strictNe_other _ _ Hother) as Hne.
    enter w; feed; same_world.
  - intros Hself Hown edited s' Hedit. cbn in Hself.
    pose proof (strictNe_refl (User.id u)) as Hsame.
    enter w; rewrite Hown; feed; same_world.
  - intros Hnot edited s' Hedit. cbn in Hnot.
    enter w; feed; same_world.
Qed.

(** X11. Removing a user as a caller that is not self-only.  Asking for
    its own id while its password change is pending gives [Forbidden]
    before any load.  Otherwise an id that is not in the store gives
    [NotFound] with nothing removed, and an id that is there has that
    record removed, once, and 204 sent. *)
Theorem user_remove_privileged req (w w1 : World S) perms :
  UserController.getPermissions req false w = (Returned perms, w1) ->
  permissionOnlyHimself perms = false ->
  (parseInt (params_id req) = Num (User.id (loggedUser perms)) ->
   User.pendingPassword (loggedUser perms) = true ->
   UserController.remove req w
   = (Threw (APIError "Forbidden" HttpStatus.FORBIDDEN
               "auth.pendant-change-temporary-password"),
      after w (validateEvents req ++ [identityLoad req])))
  /\ (parseInt (params_id req) <> Num (User.id (loggedUser perms))
      \/ User.pendingPassword (loggedUser perms) = false ->
      (user_findById (parseInt (params_id req)) (store w) = None ->
       UserController.remove req w
       = (Threw (APIError "Not found" HttpStatus.NOT_FOUND "user.not-found"),
          after w (validateEvents req
                   ++ [identityLoad req;
                       UserFindById (parseInt (params_id req))])))
      /\ (forall target s',
            user_findById (parseInt (params_id req)) (store w) = Some target ->
            user_remove target (store w) = (Returned tt, s') ->
            UserController.remove req w
            = (Returned tt,
               mkWorld s'
                 (events w ++ validateEvents req
                  ++ [identityLoad req;
                      UserFindById (parseInt (params_id req));
                      UserRemove target; ResStatus HttpStatus.NO_CONTENT;
                      ResJson JEmpty; Next false])))).
Proof.
  intros Hperms Hnot. of_user_perms Hperms. cbn in Hnot. split.
  - intros Hown Hpending.
    pose proof (strictEq_refl (User.id u)) as Hsame.
    enter w; rewrite Hown; feed; same_world.
  - intros Hfree.
    assert (Htest : strictEq (Num (User.id u)) (parseInt (params_id req))
                    && User.pendingPassword u = false).
    { destruct Hfree as [Hother|Hpending].
      - now rewrite (strictEq_other _ _ Hother).
      - rewrite Hpending. apply andb_false_r. }
    split; intros; enter w; feed; same_world.
Qed.

(** X12. Reading a user as a caller that is not self-only: a user that
    exists is sent as the response, whether or not the caller's own
    password change is pending. *)
Theorem user_findById_privileged req (w : World S) u target :
  user_findById (Num (userId req)) (store w) = Some u ->
  permissionOnlyHimself (permissionsOf u) = false ->
  user_findById (parseInt (params_id req)) (store w) = Some target ->
  UserController.findById req w
  = (Returned tt,
     after w (validateEvents req
              ++ [identityLoad req; UserFindById (parseInt (params_id req));
                  ResJson (JUser target); Next false])).
Proof.
  intros Hu Hnot Htarget. cbn in Hnot.
  enter w; feed; same_world.
Qed.

(** X13. Promoting a user as a super caller.  For any requested id that is
    not the caller's own, an id that is not a number included, the service
    is asked to promote that id; on success 200 is sent with the promoted
    user, on failure the failure is the action's and nothing is sent. *)
Theorem user_promote_delegates req (w w1 : World S) perms :
  UserController.getPermissions req true w = (Returned perms, w1) ->
  permissionSuper perms = true ->
  parseInt (params_id req) <> Num (User.id (loggedUser perms)) ->
  (forall promoted s',
     user_promote (parseInt (params_id req)) (store w) = (Returned promoted, s') ->
     UserController.promote req w
     = (Returned tt,
        mkWorld s'
          (events w ++ validateEvents req
           ++ [identityLoad req; UserPromote (parseInt (params_id req));
               ResStatus HttpStatus.OK;
               ResJson (JUserMessage "user.promotion-successfully" promoted);
               Next false])))
  /\ (forall e s',
        user_promote (parseInt (params_id req)) (store w) = (Threw e, s') ->
        UserController.promote req w
        = (Threw e,
           mkWorld s'
             (events w ++ validateEvents req
              ++ [identityLoad req; UserPromote (parseInt (params_id req))]))).
Proof.
  intros Hperms Hsuper Hother. of_user_perms Hperms. cbn in Hsuper.
  pose proof (strictEq_other _ _ Hother) as Hne.
  split; intros; enter w; feed; same_world.
Qed.

(** X14. Listing users as a caller that is not self-only: the service is
    asked once, with the filter of [getFilter] and the requested name put
    in when there is one; the owner of the filter is never set, and the
    rows the service gives are what is paged and sent. *)
Theorem user_listAll_unrestricted req (w w1 : World S) perms :
  UserController.getPermissions req true w = (Returned perms, w1) ->
  permissionOnlyHimself perms = false ->
  let filter :=
    match q_name (query req) with
    | None | Some "" => getFilter (query req)
    | Some n => setName (getFilter (query req)) n
    end in
  UserController.listAll req w
  = (Returned tt,
     after w (validateEvents req
              ++ [identityLoad req; UserFindAll filter;
                  ResJson (JUserPage (user_findAll filter (store w))
                             (page filter) (size filter));
                  Next false]))
  /\ f_userId filter = f_userId (getFilter (query req)).
Proof.
  intros Hperms Hnot filter. subst filter. of_user_perms Hperms. cbn in Hnot.
  split.
  - enter w; feed; destruct (q_name (query req)) as [[|c n]|]; same_world.
  - now destruct (q_name (query req)) as [[|c n]|].
Qed.
End Further.

(** ** What the actions never call *)

Section CallDiscipline.
Context {S : Type}.
Variable P : Event -> bool.

Lemma emitsOnly_ret {A} (a : A) : emitsOnly P (ret (S:=S) a).
Proof. intros w. exists []. cbn. now rewrite app_nil_r. Qed.

Lemma emitsOnly_throw {A} (e : Exn) : emitsOnly P (throw (S:=S) (A:=A) e).
Proof. intros w. exists []. cbn. now rewrite app_nil_r. Qed.

Lemma emitsOnly_throwIf (c : bool) (e : Exn) :
  emitsOnly P (throwIf (S:=S) c e).
Proof. destruct c; [apply emitsOnly_throw | apply emitsOnly_ret]. Qed.

Lemma emitsOnly_emit (e : Event) : P e = true -> emitsOnly P (emit (S:=S) e).
Proof. intros He w. exists [e]. cbn. now rewrite He. Qed.

Lemma emitsOnly_callRead {A} (e : Event) (op : S -> A) :
  P e = true -> emitsOnly P (callRead e op).
Proof. intros He w. exists [e]. cbn. now rewrite He. Qed.

Lemma emitsOnly_callWrite {A} (e : Event) (op : S -> Outcome A * S) :
  P e = true -> emitsOnly P (callWrite e op).
Proof.
  intros He w. exists [e]. unfold callWrite.
  destruct (op (store w)). cbn. now rewrite He.
Qed.

Lemma emitsOnly_detached {A} (m : M S A) :
  emitsOnly P m -> emitsOnly P (detached m).
Proof. intros Hm w. exact (Hm w). Qed.

Lemma emitsOnly_bind {A B} (m : M S A) (k : A -> M S B) :
  emitsOnly P m -> (forall a, emitsOnly P (k a)) -> emitsOnly P (bind m k).
Proof.
  intros Hm Hk w. unfold bind. destruct (Hm w) as (es1 & H1 & Hp1).
  destruct (m w) as [[a|e] w1]; cbn in *; [|now exists es1].
  destruct (Hk a w1) as (es2 & H2 & Hp2). exists (es1 ++ es2). split.
  - now rewrite H2, H1, app_assoc.
  - rewrite forallb_app. now rewrite Hp1, Hp2.
Qed.
End CallDiscipline.

Section Responses.
Context {S : Type}.

Lemma countResJson_app (es1 es2 : list Event) :
  countResJson (es1 ++ es2) = (countResJson es1 + countResJson es2)%nat.
Proof.
  induction es1 as [|e es1 IH]; cbn; [reflexivity|]. rewrite IH. lia.
Qed.

Lemma countResJson_silent (es : list Event) :
  forallb notResJson es = true -> countResJson es = 0%nat.
Proof.
  induction es as [|e es IH]; cbn; [reflexivity|].
  unfold notResJson at 1. destruct (isResJson e); cbn; [discriminate|].
  exact IH.
Qed.

Lemma respondsAtMost_silent {A} (n : nat) (m : M S A) :
  emitsOnly notResJson m -> respondsAtMost n m.
Proof.
  intros Hm w. destruct (Hm w) as (es & Hes & Hsilent).
  exists es. split; [exact Hes|]. rewrite (countResJson_silent _ Hsilent). lia.
Qed.

Lemma respondsAtMost_bind_silent {A B} (n : nat) (m : M S A) (k : A -> M S B) :
  emitsOnly notResJson m -> (forall a, respondsAtMost n (k a)) ->
  respondsAtMost n (bind m k).
Proof.
  intros Hm Hk w. unfold bind. destruct (Hm w) as (es1 & H1 & Hsilent).
  pose proof (countResJson_silent _ Hsilent) as Hzero.
  destruct (m w) as [[a|e] w1]; cbn in *.
  - destruct (Hk a w1) as (es2 & H2 & Hle). exists (es1 ++ es2). split.
    + now rewrite H2, H1, app_assoc.
    + rewrite countResJson_app. lia.
  - exists es1. split; [exact H1 | lia].
Qed.

Lemma respondsAtMost_json_then {B} (body : Json) (k : unit -> M S B) :
  (forall a, emitsOnly notResJson (k a)) ->
  respondsAtMost 1 (bind (emit (ResJson body)) k).
Proof.
  intros Hk w. unfold bind, emit.
  destruct (Hk tt (mkWorld (store w) (events w ++ [ResJson body])))
    as (es & Hes & Hsilent).
  exists (ResJson body :: es). split.
  - rewrite Hes. cbn. now rewrite <- app_assoc.
  - cbn. rewrite (countResJson_silent _ Hsilent). lia.
Qed.

Lemma respondsAtMost_json (body : Json) :
  respondsAtMost 1 (emit (S:=S) (ResJson body)).
Proof. intros w. exists [ResJson body]. split; [reflexivity | cbn; lia]. Qed.

Lemma respondsAtMost_detached {A} (n : nat) (m : M S A) :
  respondsAtMost n m -> respondsAtMost n (detached m).
Proof. intros Hm w. exact (Hm w). Qed.
End Responses.

Ltac emitsOnly_steps :=
  cbv zeta;
  repeat match goal with
         | |- emitsOnly _ (detached _) => apply emitsOnly_detached
         | |- emitsOnly _ (bind _ _) => apply emitsOnly_bind; [|intros; cbv zeta]
         | |- emitsOnly _ (match ?x with _ => _ end) => destruct x
         | |- emitsOnly _ (ret _) => apply emitsOnly_ret
         | |- emitsOnly _ (throw _) => apply emitsOnly_throw
         | |- emitsOnly _ (throwIf _ _) => apply emitsOnly_throwIf
         | |- emitsOnly _ (emit _) => apply emitsOnly_emit; reflexivity
         | |- emitsOnly _ (callRead _ _) => apply emitsOnly_callRead; reflexivity
         | |- emitsOnly _ (callWrite _ _) =>
             apply emitsOnly_callWrite; reflexivity
         end.

Ltac quiet_all :=
  cbv zeta;
  repeat match goal with
         | |- quiet (bind _ _) => apply quiet_bind; [|intros; cbv zeta]
         | |- quiet (match ?x with _ => _ end) => destruct x
         | |- quiet _ => solve [auto with discipline]
         end.

Ltac respondsAtMost_steps :=
  cbv zeta;
  repeat match goal with
         | |- respondsAtMost _ (detached _) => apply respondsAtMost_detached
         | |- respondsAtMost _ (bind (emit (ResJson _)) _) =>
             apply respondsAtMost_json_then; intros; solve [emitsOnly_steps]
         | |- respondsAtMost _ (emit (ResJson _)) => apply respondsAtMost_json
         | |- respondsAtMost _ (bind _ _) =>
             apply respondsAtMost_bind_silent;
             [solve [emitsOnly_steps] | intros; cbv zeta]
         | |- respondsAtMost _ (match ?x with _ => _ end) => destruct x
         | |- respondsAtMost _ _ =>
             solve [apply respondsAtMost_silent; emitsOnly_steps]
         end.

Ltac open_actions :=
  unfold_actions; unfold NewsletterController.listAllFromLoggedUser.

Section Never.
Context {S : Type} {US : UserService S} {NS : NewsletterService S}
        {PG : Pagination}.

(** X17. The two list actions, the two read-by-id actions and
    [listAllFromLoggedUser] never ask a service to change anything and
    leave the store as it was, whatever the request and the outcome. *)
Theorem read_actions_never_write req :
  Forall (fun action : Request -> M S unit =>
            quiet (action req) /\ emitsOnly notServiceWrite (action req))
         readActions.
Proof.
  unfold readActions.
  repeat (constructor;
          [split; open_actions; [quiet_all | emitsOnly_steps]|]).
  constructor.
Qed.

(** X18. No action of the user controller writes to the activity log,
    whatever it does to the store. *)
Theorem user_actions_never_log req :
  Forall (fun action : Request -> M S unit => emitsOnly notLogInfo (action req))
         userActions.
Proof.
  unfold userActions.
  repeat (constructor; [open_actions; emitsOnly_steps|]).
  constructor.
Qed.

(** X19. When validation left no error, every action but
    [UserController.remove] sends at most one response body, whatever the
    caller, the store and the services do. *)
Theorem at_most_one_response req :
  validationErrors req = [] ->
  Forall (fun action : Request -> M S unit => respondsAtMost 1 (action req))
         actionsButUserRemove.
Proof.
  intros Hvalid. unfold actionsButUserRemove, gatedActions. cbn [app].
  repeat (constructor;
          [open_actions; rewrite ?Hvalid; respondsAtMost_steps|]).
  constructor.
Qed.
End Never.

(** ** The further theorems at work on the in-memory store *)

Lemma unknown_caller_unauthorized_witness :
  Forall (fun action : Request -> M MemStore unit =>
            exists message,
              action (request 99 "1") sampleWorld
              = (Threw (APIError "Unauthorized" 401 message),
                 after sampleWorld [UserFindById (Num 99)]))
         [ NewsletterController.listAll; NewsletterController.findById;
           NewsletterController.create; NewsletterController.edit;
           NewsletterController.activate; NewsletterController.deactivate;
           NewsletterController.remove;
           UserController.listAll; UserController.findById;
           UserController.remove; UserController.create; UserController.edit;
           UserController.promote ]
  /\ NewsletterController.listAllFromLoggedUser (request 99 "1") sampleWorld
     = (Threw (ReferenceError "listAll"), sampleWorld).
Proof.
  assert (Hnone : user_findById (Num 99) sampleStore = None) by evaluate.
  exact (unknown_caller_unauthorized (request 99 "1") sampleWorld Hnone).
Defined.

Lemma newsletter_create_ownership_witness :
  NewsletterController.create (withPayload (request 1 "") "Theirs" 2) sampleWorld
  = (Threw (APIError "Forbidden" 403
              "You don't have privileges to create newsletters from another users"),
     after sampleWorld [UserFindById (Num 1)])
  /\ NewsletterController.create (withPayload (request 1 "") "Mine" 1) sampleWorld
     = (Returned tt,
        mkWorld (withNewsletters sampleStore
                   (<[13 := Newsletter.Build 13 "Mine" 1 true]>
                      (newsletters sampleStore)))
          [UserFindById (Num 1);
           NewsletterSave (body (withPayload (request 1 "") "Mine" 1));
           ResStatus 201; ResJson (JNewsletter (Newsletter.Build 13 "Mine" 1 true));
           LogInfo (Newsletter.Build 13 "Mine" 1 true) "was created"
             (Some (1, "alice"))])
  /\ NewsletterController.create (NS:=readOnlyNewsletterService)
       (withPayload (request 2 "") "Theirs" 1) sampleWorld
     = (Threw readOnly,
        mkWorld sampleStore
          [UserFindById (Num 2);
           NewsletterSave (body (withPayload (request 2 "") "Theirs" 1))]).
Proof.
  split; [|split].
  - refine (proj1 (newsletter_create_ownership
                     (withPayload (request 1 "") "Theirs" 2) sampleWorld
                     (after sampleWorld [UserFindById (Num 1)])
                     (permissionsOf alice) _) _ _);
      [evaluate | evaluate | discriminate].
  - refine (proj1 (proj2 (newsletter_create_ownership
                            (withPayload (request 1 "") "Mine" 1) sampleWorld
                            (after sampleWorld [UserFindById (Num 1)])
                            (permissionsOf alice) _) _) _ _ _);
      [evaluate | right; evaluate | evaluate].
  - refine (proj2 (proj2 (newsletter_create_ownership
                            (NS:=readOnlyNewsletterService)
                            (withPayload (request 2 "") "Theirs" 1) sampleWorld
                            (after sampleWorld [UserFindById (Num 2)])
                            (permissionsOf bob) _) _) _ _ _);
      [evaluate | left; evaluate | evaluate].
Defined.

Lemma newsletter_mutations_guarded_witness :
  NewsletterController.activate (request 1 "99") sampleWorld
  = (Threw (APIError "Not found" 404 "Newsletter not found"),
     after sampleWorld [UserFindById (Num 1); NewsletterFindById (Num 99)])
  /\ NewsletterController.activate (request 1 "12") sampleWorld
     = (Threw (APIError "Forbidden" 403
                 "You don't have privileges to edit newsletters of another users"),
        after sampleWorld [UserFindById (Num 1); NewsletterFindById (Num 12)]).
Proof.
  split.
  - assert (Hperms : NewsletterController.getPermissions (request 1 "99") true
                       sampleWorld
                     = (Returned (permissionsOf alice),
                        after sampleWorld [UserFindById (Num 1)]))
      by evaluate.
    pose proof (newsletter_mutations_guarded _ _ _ _ Hperms) as Hall.
    apply Forall_cons_1 in Hall. destruct Hall as [[Habsent _] _].
    apply Habsent. evaluate.
  - assert (Hperms : NewsletterController.getPermissions (request 1 "12") true
                       sampleWorld
                     = (Returned (permissionsOf alice),
                        after sampleWorld [UserFindById (Num 1)]))
      by evaluate.
    pose proof (newsletter_mutations_guarded _ _ _ _ Hperms) as Hall.
    apply Forall_cons_1 in Hall. destruct Hall as [[_ Hforeign] _].
    apply (Hforeign bobsWeekly); [evaluate | evaluate | discriminate].
Defined.

Lemma newsletter_mutations_succeed_witness :
  NewsletterController.remove (request 1 "10") sampleWorld
  = (Returned tt,
     mkWorld (withNewsletters sampleStore (delete 10 (newsletters sampleStore)))
       [UserFindById (Num 1); NewsletterFindById (Num 10);
        NewsletterRemove weekly; ResStatus 204; ResJson JEmpty;
        LogInfo weekly "was removed" (Some (1, "alice"))]).
Proof.
  assert (Hperms : NewsletterController.getPermissions (request 1 "10") true
                     sampleWorld
                   = (Returned (permissionsOf alice),
                      after sampleWorld [UserFindById (Num 1)]))
    by evaluate.
  assert (Hweekly : newsletter_findById (parseInt "10") sampleStore = Some weekly)
    by evaluate.
  pose proof (newsletter_mutations_succeed _ _ _ _ weekly Hperms Hweekly
                (or_intror eq_refl)) as Hall.
  apply Forall_cons_1 in Hall. destruct Hall as [_ Hall].
  apply Forall_cons_1 in Hall. destruct Hall as [_ Hall].
  apply Forall_cons_1 in Hall. destruct Hall as [Hremove _].
  apply Hremove. evaluate.
Defined.

Lemma newsletter_mutation_failure_unreported_witness :
  NewsletterController.deactivate (NS:=readOnlyNewsletterService)
    (request 2 "10") sampleWorld
  = (Returned tt,
     mkWorld sampleStore
       [UserFindById (Num 2); NewsletterFindById (Num 10);
        NewsletterDeactivate weekly]).
Proof.
  assert (Hperms : NewsletterController.getPermissions (request 2 "10") true
                     sampleWorld
                   = (Returned (permissionsOf bob),
                      after sampleWorld [UserFindById (Num 2)]))
    by evaluate.
  assert (Hweekly : newsletter_findById (NewsletterService:=readOnlyNewsletterService)
                      (parseInt "10") sampleStore = Some weekly)
    by evaluate.
  pose proof (newsletter_mutation_failure_unreported
                (NS:=readOnlyNewsletterService) _ _ _ _ weekly Hperms Hweekly
                (or_introl eq_refl)) as Hall.
  apply Forall_cons_1 in Hall. destruct Hall as [_ Hall].
  apply Forall_cons_1 in Hall. destruct Hall as [Hdeactivate _].
  apply (Hdeactivate readOnly). evaluate.
Defined.

Lemma newsletter_findById_access_witness :
  NewsletterController.findById (request 1 "12") sampleWorld
  = (Threw (APIError "Forbidden" 403
              "You cannot access newsletter from another user"),
     after sampleWorld [UserFindById (Num 1); NewsletterFindById (Num 12)])
  /\ NewsletterController.findById (request 1 "10") sampleWorld
     = (Returned tt,
        after sampleWorld
          [UserFindById (Num 1); NewsletterFindById (Num 10);
           ResJson (JNewsletter weekly)])
  /\ NewsletterController.findById (request 2 "10") sampleWorld
     = (Returned tt,
        after sampleWorld
          [UserFindById (Num 2); NewsletterFindById (Num 10);
           ResJson (JNewsletter weekly)]).
Proof.
  split; [|split].
  - refine (proj1 (newsletter_findById_access (request 1 "12") sampleWorld
                     (after sampleWorld [UserFindById (Num 1)])
                     (permissionsOf alice) bobsWeekly _ _) _ _);
      [evaluate | evaluate | evaluate | discriminate].
  - refine (proj2 (newsletter_findById_access (request 1 "10") sampleWorld
                     (after sampleWorld [UserFindById (Num 1)])
                     (permissionsOf alice) weekly _ _) _);
      [evaluate | evaluate | right; evaluate].
  - refine (proj2 (newsletter_findById_access (request 2 "10") sampleWorld
                     (after sampleWorld [UserFindById (Num 2)])
                     (permissionsOf bob) weekly _ _) _);
      [evaluate | evaluate | left; evaluate].
Defined.

Lemma newsletter_edit_allowed_witness :
  NewsletterController.edit (withPayload (request 2 "10") "Weekly digest" 2)
    sampleWorld
  = (Returned tt,
     mkWorld (withNewsletters sampleStore
                (<[10 := Newsletter.Build 10 "Weekly digest" 2 true]>
                   (newsletters sampleStore)))
       [UserFindById (Num 2); NewsletterFindById (Num 10);
        NewsletterEdit weekly
          (body (withPayload (request 2 "10") "Weekly digest" 2));
        ResStatus 200;
        ResJson (JNewsletter (Newsletter.Build 10 "Weekly digest" 2 true));
        LogInfo (Newsletter.Build 10 "Weekly digest" 2 true) "was edited"
          (Some (2, "bob"))])
  /\ NewsletterController.edit (NS:=readOnlyNewsletterService)
       (withPayload (request 1 "10") "Renamed" 1) sampleWorld
     = (Threw readOnly,
        mkWorld sampleStore
          [UserFindById (Num 1); NewsletterFindById (Num 10);
           NewsletterEdit weekly
             (body (withPayload (request 1 "10") "Renamed" 1))]).
Proof.
  split.
  - refine (proj1 (newsletter_edit_allowed
                     (withPayload (request 2 "10") "Weekly digest" 2)
                     sampleWorld (after sampleWorld [UserFindById (Num 2)])
                     (permissionsOf bob) weekly _ _ _) _ _ _);
      [evaluate | evaluate | left; evaluate | evaluate].
  - refine (proj2 (newsletter_edit_allowed (NS:=readOnlyNewsletterService)
                     (withPayload (request 1 "10") "Renamed" 1)
                     sampleWorld (after sampleWorld [UserFindById (Num 1)])
                     (permissionsOf alice) weekly _ _ _) _ _ _);
      [evaluate | evaluate | right; split; evaluate | evaluate].
Defined.

Lemma newsletter_listAll_unrestricted_witness :
  (exists filter,
     NewsletterController.listAll
       (withLoggedUser (request 2 "") (QString "true")) sampleWorld
     = (Returned tt,
        after sampleWorld
          [UserFindById (Num 2); NewsletterFindAll filter;
           ResJson (JNewsletterPage (newsletter_findAll filter sampleStore)
                      (page filter) (size filter))])
     /\ f_userId filter = None)
  /\ (exists filter,
        NewsletterController.listAll
          (withLoggedUser (request 2 "") (QBoolean true)) sampleWorld
        = (Returned tt,
           after sampleWorld
             [UserFindById (Num 2); NewsletterFindAll filter;
              ResJson (JNewsletterPage (newsletter_findAll filter sampleStore)
                         (page filter) (size filter))])
        /\ f_userId filter = Some 2).
Proof.
  split.
  - destruct (newsletter_listAll_unrestricted
                (withLoggedUser (request 2 "") (QString "true")) sampleWorld
                (after sampleWorld [UserFindById (Num 2)]) (permissionsOf bob))
      as (filter & Hrun & _ & Hstring & _); [evaluate | evaluate |].
    exists filter. split; [exact Hrun|]. apply Hstring. discriminate.
  - destruct (newsletter_listAll_unrestricted
                (withLoggedUser (request 2 "") (QBoolean true)) sampleWorld
                (after sampleWorld [UserFindById (Num 2)]) (permissionsOf bob))
      as (filter & Hrun & Hflag & _); [evaluate | evaluate |].
    exists filter. split; [exact Hrun|]. apply Hflag. reflexivity.
Defined.

Lemma user_create_privileged_only_witness :
  UserController.create (withUserPayload (request 1 "") "frank" true false)
    sampleWorld
  = (Threw (APIError "Forbidden" 403 "user.not-have-privileges-to-create-users"),
     after sampleWorld [UserFindById (Num 1)])
  /\ UserController.create (withUserPayload (request 2 "") "frank" true false)
       sampleWorld
     = (Returned tt,
        mkWorld (withUsers sampleStore
                   (<[6 := User.Build 6 "frank" true false false]>
                      (users sampleStore)))
          [UserFindById (Num 2);
           UserSave {| b_name := Some "frank"; b_email := Some "new@example.org";
                       b_password := Some "secret"; b_super := Some true;
                       b_pendingConfirm := None; b_userId := None |};
           ResStatus 201;
           ResJson (JUser (User.Build 6 "frank" true false false));
           Next false])
  /\ UserController.create (US:=readOnlyUserService)
       (withUserPayload (request 2 "") "frank" true false) sampleWorld
     = (Threw readOnly,
        mkWorld sampleStore
          [UserFindById (Num 2);
           UserSave {| b_name := Some "frank"; b_email := Some "new@example.org";
                       b_password := Some "secret"; b_super := Some true;
                       b_pendingConfirm := None; b_userId := None |}]).
Proof.
  split; [|split].
  - refine (proj1 (user_create_privileged_only
                     (withUserPayload (request 1 "") "frank" true false)
                     sampleWorld (after sampleWorld [UserFindById (Num 1)])
                     (permissionsOf alice) _) _); evaluate.
  - refine (proj1 (proj2 (user_create_privileged_only
                            (withUserPayload (request 2 "") "frank" true false)
                            sampleWorld
                            (after sampleWorld [UserFindById (Num 2)])
                            (permissionsOf bob) _) _) _ _ _); evaluate.
  - refine (proj2 (proj2 (user_create_privileged_only (US:=readOnlyUserService)
                            (withUserPayload (request 2 "") "frank" true false)
                            sampleWorld
                            (after sampleWorld [UserFindById (Num 2)])
                            (permissionsOf bob) _) _) _ _ _); evaluate.
Defined.

Lemma user_edit_fields_witness :
  UserController.edit (withUserPayload (request 1 "2") "mallory" true false)
    sampleWorld
  = (Threw (APIError "Forbidden" 403 "user.not-have-privileges-to-edit-users"),
     after sampleWorld [UserFindById (Num 1)])
  /\ UserController.edit (withUserPayload (request 1 "1") "alicia" true false)
       sampleWorld
     = (Returned tt,
        mkWorld (withUsers sampleStore
                   (<[1 := User.Build 1 "alicia" false false false]>
                      (users sampleStore)))
          [UserFindById (Num 1);
           UserEdit alice
             {| b_name := Some "alicia"; b_email := Some "new@example.org";
                b_password := Some "secret"; b_super := None;
                b_pendingConfirm := None; b_userId := None |};
           ResStatus 200;
           ResJson (JUser (User.Build 1 "alicia" false false false));
           Next true])
  /\ UserController.edit (withUserPayload (request 2 "3") "carol" true false)
       sampleWorld
     = (Returned tt,
        mkWorld (withUsers sampleStore
                   (<[3 := User.Build 3 "carol" true false false]>
                      (users sampleStore)))
          [UserFindById (Num 2);
           UserEditById (Num 3)
             {| b_name := Some "carol"; b_email := Some "new@example.org";
                b_password := Some "secret"; b_super := None;
                b_pendingConfirm := Some false; b_userId := None |};
           ResStatus 200;
           ResJson (JUser (User.Build 3 "carol" true false false));
           Next false]).
Proof.
  split; [|split].
  - refine (proj1 (user_edit_fields
                     (withUserPayload (request 1 "2") "mallory" true false)
                     sampleWorld (after sampleWorld [UserFindById (Num 1)])
                     (permissionsOf alice) _) _ _);
      [evaluate | evaluate | vm_compute; discriminate].
  - refine (proj1 (proj2 (user_edit_fields
                            (withUserPayload (request 1 "1") "alicia" true false)
                            sampleWorld
                            (after sampleWorld [UserFindById (Num 1)])
                            (permissionsOf alice) _)) _ _ _ _ _); evaluate.
  - refine (proj2 (proj2 (user_edit_fields
                            (withUserPayload (request 2 "3") "carol" true false)
                            sampleWorld
                            (after sampleWorld [UserFindById (Num 2)])
                            (permissionsOf bob) _)) _ _ _ _); evaluate.
Defined.

Lemma user_remove_privileged_witness :
  UserController.remove (request 5 "5") sampleWorld
  = (Threw (APIError "Forbidden" 403 "auth.pendant-change-temporary-password"),
     after sampleWorld [UserFindById (Num 5)])
  /\ UserController.remove (request 2 "99") sampleWorld
     = (Threw (APIError "Not found" 404 "user.not-found"),
        after sampleWorld [UserFindById (Num 2); UserFindById (Num 99)])
  /\ UserController.remove (request 5 "1") sampleWorld
     = (Returned tt,
        mkWorld (withUsers sampleStore (delete 1 (users sampleStore)))
          [UserFindById (Num 5); UserFindById (Num 1); UserRemove alice;
           ResStatus 204; ResJson JEmpty; Next false]).
Proof.
  split; [|split].
  - refine (proj1 (user_remove_privileged (request 5 "5") sampleWorld
                     (after sampleWorld [UserFindById (Num 5)])
                     (permissionsOf erin) _ _) _ _); evaluate.
  - refine (proj1 (proj2 (user_remove_privileged (request 2 "99") sampleWorld
                            (after sampleWorld [UserFindById (Num 2)])
                            (permissionsOf bob) _ _) _) _);
      [evaluate | evaluate | right; evaluate | evaluate].
  - refine (proj2 (proj2 (user_remove_privileged (request 5 "1") sampleWorld
                            (after sampleWorld [UserFindById (Num 5)])
                            (permissionsOf erin) _ _) _) alice _ _ _);
      [evaluate | evaluate | left; vm_compute; discriminate
      | evaluate | evaluate].
Defined.

Lemma user_findById_privileged_witness :
  UserController.findById (request 5 "1") sampleWorld
  = (Returned tt,
     after sampleWorld
       [UserFindById (Num 5); UserFindById (Num 1); ResJson (JUser alice);
        Next false])
  /\ User.pendingPassword erin = true.
Proof.
  split; [|reflexivity].
  refine (user_findById_privileged (request 5 "1") sampleWorld erin alice
            _ _ _); evaluate.
Defined.

Lemma user_promote_delegates_witness :
  UserController.promote (request 2 "1") sampleWorld
  = (Returned tt,
     mkWorld (withUsers sampleStore
                (<[1 := User.Build 1 "alice" true true false]>
                   (users sampleStore)))
       [UserFindById (Num 2); UserPromote (Num 1); ResStatus 200;
        ResJson (JUserMessage "user.promotion-successfully"
                   (User.Build 1 "alice" true true false));
        Next false])
  /\ UserController.promote (request 2 "abc") sampleWorld
     = (Threw (APIError "Not found" 404 "user.not-found"),
        mkWorld sampleStore [UserFindById (Num 2); UserPromote NaN]).
Proof.
  split.
  - refine (proj1 (user_promote_delegates (request 2 "1") sampleWorld
                     (after sampleWorld [UserFindById (Num 2)])
                     (permissionsOf bob) _ _ _) _ _ _);
      [evaluate | evaluate | vm_compute; discriminate | evaluate].
  - refine (proj2 (user_promote_delegates (request 2 "abc") sampleWorld
                     (after sampleWorld [UserFindById (Num 2)])
                     (permissionsOf bob) _ _ _) _ _ _);
      [evaluate | evaluate | vm_compute; discriminate | evaluate].
Defined.

Lemma user_listAll_unrestricted_witness :
  UserController.listAll (withName (request 2 "") "a") sampleWorld
  = (Returned tt,
     after sampleWorld
       [UserFindById (Num 2);
        UserFindAll {| page := None; size := None; f_name := Some "a";
                       f_userId := None |};
        ResJson (JUserPage [carol; dave; alice] None None);
        Next false]).
Proof.
  refine (eq_trans
            (proj1 (user_listAll_unrestricted (withName (request 2 "") "a")
                      sampleWorld (after sampleWorld [UserFindById (Num 2)])
                      (permissionsOf bob) _ _)) _); evaluate.
Defined.

Lemma at_most_one_response_witness :
  Forall (fun action : Request -> M MemStore unit =>
            respondsAtMost 1 (action (request 2 "10")))
         actionsButUserRemove.
Proof. exact (at_most_one_response (request 2 "10") eq_refl). Defined.

Lemma failure_precedes_write_witness :
  Forall (fun action : Request -> M MemStore unit =>
            failsClean (action (request 1 "12")))
         actionsButUserRemove.
Proof. exact (failure_precedes_write (request 1 "12") eq_refl). Defined.

(** ** Which locales are Windows-1252 *)

(** X20. A feed is Windows-1252 exactly when its locale is [pt-br] or
    [en-us] written in any mix of capitals and small letters, and nothing
    more: five characters, the third a hyphen, no space around.  Every
    other locale string is UTF-8. *)
Theorem getEncoding_case_variants (feed : Feed.t) (l : string) :
  Feed.locale feed = Some l ->
  let variant :=
    exists a b c d,
      l = String a (String b (String "-" (String c (String d ""))))
      /\ ((In a ["p"; "P"]%char /\ In b ["t"; "T"]%char
           /\ In c ["b"; "B"]%char /\ In d ["r"; "R"]%char)
          \/ (In a ["e"; "E"]%char /\ In b ["n"; "N"]%char
              /\ In c ["u"; "U"]%char /\ In d ["s"; "S"]%char)) in
  (Feed.getEncoding feed = Returned "Windows-1252" <-> variant)
  /\ (Feed.getEncoding feed = Returned "UTF-8" <-> ~ variant).
Proof.
  intros Hl variant.
  assert (Hvariant : variant
                     <-> Feed.toLowerCase l = "pt-br"
                         \/ Feed.toLowerCase l = "en-us").
  { subst variant. split.
    - intros (a & b & c & d & -> & [(Ha & Hb & Hc & Hd)|(Ha & Hb & Hc & Hd)]);
        [left | right]; apply toLowerCase_five;
        exists a, b, "-"%char, c, d; cbn in Ha, Hb, Hc, Hd;
        (split; [reflexivity|]);
        rewrite ?lower_is_p, ?lower_is_t, ?lower_is_b, ?lower_is_r,
          ?lower_is_e, ?lower_is_n, ?lower_is_u, ?lower_is_s;
        (repeat split; try reflexivity); intuition congruence.
    - intros [H|H]; apply toLowerCase_five in H;
        destruct H as (a & b & x & c & d & -> & Ha & Hb & Hx & Hc & Hd);
        apply lower_is_dash in Hx;
        assert (x = "-"%char) as -> by (now destruct Hx);
        exists a, b, c, d; (split; [reflexivity|]).
      + left. apply lower_is_p in Ha. apply lower_is_t in Hb.
        apply lower_is_b in Hc. apply lower_is_r in Hd.
        cbn. intuition congruence.
      + right. apply lower_is_e in Ha. apply lower_is_n in Hb.
        apply lower_is_u in Hc. apply lower_is_s in Hd.
        cbn. intuition congruence. }
  unfold Feed.getEncoding. rewrite Hl. rewrite Hvariant.
  destruct (String.eqb_spec (Feed.toLowerCase l) "pt-br") as [Hpt|Hpt];
    [|destruct (String.eqb_spec (Feed.toLowerCase l) "en-us") as [Hen|Hen]].
  all: repeat split; intros; try discriminate; intuition congruence.
Qed.

Lemma getEncoding_case_variants_witness :
  Feed.getEncoding (feedOf "En-uS") = Returned "Windows-1252"
  /\ Feed.getEncoding (feedOf "pt_BR") = Returned "UTF-8".
Proof.
  split.
  - apply (proj1 (getEncoding_case_variants (feedOf "En-uS") "En-uS" eq_refl)).
    exists "E"%char, "n"%char, "u"%char, "S"%char. split; [reflexivity|].
    right. cbn. tauto.
  - apply (proj2 (getEncoding_case_variants (feedOf "pt_BR") "pt_BR" eq_refl)).
    intros (a & b & c & d & Hl & _). discriminate Hl.
Defined.

(** ** The fall-through of [UserController.remove], second half *)

Section FallThrough.
Context {S : Type} {US : UserService S}.

(** X21. Validation left no error, a self-only caller removes its own
    record, and the store still has a record under that id afterwards:
    having answered 204 and called [next(res)], the action goes on, loads
    the id again and asks the service to remove the record it finds.  The
    service has removed twice and the store is what the second removal
    left; what becomes of the response sent after that is not stated. *)
Theorem user_remove_self_runs_twice req (w w1 : World S) perms s1 again s2 :
  validationErrors req = [] ->
  UserController.getPermissions req false w = (Returned perms, w1) ->
  permissionOnlyHimself perms = true ->
  parseInt (params_id req) = Num (User.id (loggedUser perms)) ->
  User.pendingPassword (loggedUser perms) = false ->
  user_remove (loggedUser perms) (store w) = (Returned tt, s1) ->
  user_findById (Num (User.id (loggedUser perms))) s1 = Some again ->
  user_remove again s1 = (Returned tt, s2) ->
  store (snd (UserController.remove req w)) = s2
  /\ exists es,
       events (snd (UserController.remove req w))
       = events w
         ++ [UserFindById (Num (userId req)); UserRemove (loggedUser perms);
             ResStatus HttpStatus.NO_CONTENT; ResJson JEmpty; Next true;
             UserFindById (Num (User.id (loggedUser perms)));
             UserRemove again]
         ++ es.
Proof.
  intros Hvalid Hperms Hself Hown Hpending Hremove Hstill Hagain.
  of_user_perms Hperms. cbn in Hself.
  pose proof (strictEq_refl (User.id u)) as Heq.
  pose proof (strictNe_refl (User.id u)) as Hne.
  destruct w as [s0 es0]. unfold_actions. unfold_js. cbn [store events] in *.
  rewrite Hvalid, Hown. feed. cbn [fst snd store events].
  split; [reflexivity|]. eexists. rewrite <- !app_assoc. cbn [app].
  reflexivity.
Qed.
End FallThrough.

Lemma user_remove_self_runs_twice_witness :
  store (snd (UserController.remove (US:=keepingUserService) (request 1 "1")
                sampleWorld))
  = sampleStore
  /\ exists es,
       events (snd (UserController.remove (US:=keepingUserService)
                      (request 1 "1") sampleWorld))
       = [UserFindById (Num 1); UserRemove alice; ResStatus 204; ResJson JEmpty;
          Next true; UserFindById (Num 1); UserRemove alice] ++ es.
Proof.
  refine (user_remove_self_runs_twice (US:=keepingUserService) (request 1 "1")
            sampleWorld (after sampleWorld [UserFindById (Num 1)])
            (permissionsOf alice) sampleStore alice sampleStore
            _ _ _ _ _ _ _ _); evaluate.
Defined.

Lemma validation_reported_first_witness :
  Forall (fun action : Request -> M MemStore unit =>
            exists es,
              events (snd (action (request 2 "1") sampleWorld))
              = UserFindById (Num 2) :: es)
         (gatedActions ++ selfGatedActions)
  /\ Forall (fun action : Request -> M MemStore unit =>
               exists es,
                 events (snd (action (withErrors (request 2 "1") [nameRequired])
                                sampleWorld))
                 = ResStatus 422 :: ResJson (JErrors [nameRequired])
                   :: UserFindById (Num 2) :: es)
            (gatedActions ++ selfGatedActions).
Proof.
  split.
  - refine (Forall_impl _ _ _ (validation_reported_first (request 2 "1")
                                 sampleWorld) _).
    intros action [Hvalid _]. apply Hvalid. reflexivity.
  - refine (Forall_impl _ _ _
              (validation_reported_first
                 (withErrors (request 2 "1") [nameRequired]) sampleWorld) _).
    intros action [_ Herrors]. apply Herrors. discriminate.
Defined.
